(** * Verification of the assignment-answering service (app.py)

    A shallow embedding of [app.py]: the upload validation, the file type
    classifier, the content summarizers, the archive walker, the local
    command dispatch and the remote delegation of the single endpoint
    [answer_question].

    Python's effects are explicit: every [async def] is a computation in
    the monad [M] (state passing over a [world] that holds the file system
    and the trace of external events, with Python exceptions as the second
    outcome).  External collaborators (pandas, zipfile, werkzeug, the shell,
    the HTTP client) are fields of an environment record [Env], so every
    universally quantified theorem holds whatever they answer.  The one
    loop ([compute_sha256]) and the one recursion ([collect_file_data]
    through [handle_zip_file]) run on a bound; running out of it is the
    third outcome, [OutOfFuel], which no [except] clause catches. *)

From Stdlib Require Import String Ascii List ZArith NArith Lia Bool Strings.Byte.
From Stdlib Require Import DecimalString.
From stdpp Require Import gmap strings.
Import ListNotations.

Local Open Scope Z_scope.
Local Open Scope string_scope.
Local Open Scope list_scope.

(** ** Python strings

    A [string] holds a Python [str] as its UTF-8 encoding, one [ascii]
    per byte: prefix, suffix and substring tests on the bytes are those
    on the code points, and [strip] removes every white space character
    of [str.isspace], of one byte or of several.  [lower] maps the ASCII
    letters, which is all the tests of the source look at. *)

Module PyStr.

Definition nl : string := String (ascii_of_nat 10) EmptyString.

(** [c.lower()] on the ASCII range. *)
Definition lower_ascii (c : ascii) : ascii :=
  let n := nat_of_ascii c in
  if ((65 <=? n) && (n <=? 90))%nat then ascii_of_nat (n + 32) else c.

(** [s.lower()] *)
Fixpoint lower (s : string) : string :=
  match s with
  | EmptyString => EmptyString
  | String c t => String (lower_ascii c) (lower t)
  end.

(** [s.startswith(p)] *)
Fixpoint startswith (s p : string) : bool :=
  match p, s with
  | EmptyString, _ => true
  | String _ _, EmptyString => false
  | String b p', String a s' => Ascii.eqb a b && startswith s' p'
  end.

(** Drop the first [n] characters: [s[n:]]. *)
Fixpoint drop (n : nat) (s : string) : string :=
  match n, s with
  | O, _ => s
  | S _, EmptyString => EmptyString
  | S n', String _ t => drop n' t
  end.

(** Keep the first [n] characters: [s[:n]]. *)
Fixpoint take (n : nat) (s : string) : string :=
  match n, s with
  | O, _ => EmptyString
  | S _, EmptyString => EmptyString
  | S n', String c t => String c (take n' t)
  end.

(** [s.endswith(suffix)] *)
Definition endswith (s suffix : string) : bool :=
  (String.length suffix <=? String.length s)%nat
  && String.eqb (drop (String.length s - String.length suffix) s) suffix.

(** [needle in hay] *)
Fixpoint contains (hay needle : string) : bool :=
  startswith hay needle
  || match hay with
     | EmptyString => false
     | String _ t => contains t needle
     end.

(** [s.rfind(c)] for a single character, as [Some index] or [None] for -1. *)
Fixpoint rfind_from (i : nat) (c : ascii) (s : string) : option nat :=
  match s with
  | EmptyString => None
  | String a t =>
      match rfind_from (S i) c t with
      | Some j => Some j
      | None => if Ascii.eqb a c then Some i else None
      end
  end.

Definition rfind (c : ascii) (s : string) : option nat := rfind_from 0 c s.

(** The UTF-8 encoding of a code point below 0x10000: a [string] holds a
    Python [str] as its UTF-8 encoding, one [ascii] per byte. *)
Definition utf8 (cp : N) : string :=
  if (cp <? 0x80)%N then String (ascii_of_N cp) EmptyString
  else if (cp <? 0x800)%N then
    String (ascii_of_N (0xC0 + cp / 64))
      (String (ascii_of_N (0x80 + cp mod 64)) EmptyString)
  else
    String (ascii_of_N (0xE0 + cp / 4096))
      (String (ascii_of_N (0x80 + (cp / 64) mod 64))
         (String (ascii_of_N (0x80 + cp mod 64)) EmptyString)).

(** The code points [str.strip()] removes, those of [str.isspace]: the
    ASCII controls and the blank, NEL, the no-break space, and the
    spaces and separators of the general punctuation block. *)
Definition whitespace_code_points : list N :=
  [0x09; 0x0A; 0x0B; 0x0C; 0x0D; 0x1C; 0x1D; 0x1E; 0x1F; 0x20;
   0x85; 0xA0; 0x1680;
   0x2000; 0x2001; 0x2002; 0x2003; 0x2004; 0x2005; 0x2006; 0x2007;
   0x2008; 0x2009; 0x200A; 0x2028; 0x2029; 0x202F; 0x205F; 0x3000]%N.

Definition whitespace : list string := map utf8 whitespace_code_points.

(** The white space character [s] begins with, if any. *)
Definition leading_space (s : string) : option string :=
  find (startswith s) whitespace.

(** The white space character [s] ends with, if any. *)
Definition trailing_space (s : string) : option string :=
  find (endswith s) whitespace.

(** Remove white space characters from the left, at most [fuel] of them. *)
Fixpoint lstrip_from (fuel : nat) (s : string) : string :=
  match fuel with
  | O => s
  | S fuel' =>
      match leading_space s with
      | Some ws => lstrip_from fuel' (drop (String.length ws) s)
      | None => s
      end
  end.

(** [s.lstrip()]: a string has no more characters than bytes. *)
Definition lstrip (s : string) : string := lstrip_from (String.length s) s.

(** Remove white space characters from the right, at most [fuel] of them. *)
Fixpoint rstrip_from (fuel : nat) (s : string) : string :=
  match fuel with
  | O => s
  | S fuel' =>
      match trailing_space s with
      | Some ws => rstrip_from fuel' (take (String.length s - String.length ws) s)
      | None => s
      end
  end.

(** [s.rstrip()] *)
Definition rstrip (s : string) : string := rstrip_from (String.length s) s.

(** [s.strip()] *)
Definition strip (s : string) : string := rstrip (lstrip s).

(** [sep.join(l)] *)
Definition join (sep : string) (l : list string) : string := String.concat sep l.

(** [str(n)] for a non-negative integer. *)
Definition of_nat (n : nat) : string := NilEmpty.string_of_uint (Nat.to_uint n).

(** [str(z)] for an integer. *)
Definition of_Z (z : Z) : string := NilEmpty.string_of_int (Z.to_int z).

End PyStr.

(** ** Python exceptions

    Only subclasses of [Exception] are modelled: the clauses of the source
    are [except Exception] at their widest, and interpreter exits
    ([KeyboardInterrupt], [SystemExit]) are outside the model. *)

Inductive exn_class : Type :=
| Exception            (* any other subclass of Exception *)
| TypeError
| KeyError
| IndexError
| AttributeError
| ValueError
| RecursionError
| OSError              (* IOError is the same class *)
| FileNotFoundError    (* subclass of OSError *)
| EmptyDataError       (* pandas.errors, subclass of ValueError *)
| ParserError          (* pandas.errors, subclass of ValueError *)
| BadZipFile
| RequestException     (* requests.exceptions, subclass of IOError *)
| AsyncTimeoutError    (* asyncio.TimeoutError *)
| HTTPException (status_code : Z).   (* fastapi.HTTPException *)

(** An exception instance: its class and the text [str(e)] yields
    (for [HTTPException] the [detail]). *)
Record exn : Type := mkExn { exn_cls : exn_class; exn_msg : string }.

Definition exn_class_eqb (c d : exn_class) : bool :=
  match c, d with
  | Exception, Exception | TypeError, TypeError | KeyError, KeyError
  | IndexError, IndexError | AttributeError, AttributeError
  | ValueError, ValueError | RecursionError, RecursionError
  | OSError, OSError | FileNotFoundError, FileNotFoundError
  | EmptyDataError, EmptyDataError | ParserError, ParserError
  | BadZipFile, BadZipFile | RequestException, RequestException
  | AsyncTimeoutError, AsyncTimeoutError => true
  | HTTPException a, HTTPException b => Z.eqb a b
  | _, _ => false
  end.

(** [isinstance(e, d)] for an exception of class [c]. *)
Definition isinstance (c d : exn_class) : bool :=
  match d with
  | Exception => true
  | OSError =>
      match c with
      | OSError | FileNotFoundError | RequestException => true
      | _ => false
      end
  | ValueError =>
      match c with
      | ValueError | EmptyDataError | ParserError => true
      | _ => false
      end
  | _ => exn_class_eqb c d
  end.

(** [str(e)] *)
Definition str_exn (e : exn) : string := exn_msg e.

(** ** The world: file system and trace of external events *)

Inductive event : Type :=
| EvUploadRead (filename : string)                   (* await file.read() *)
| EvMkdtemp (dir : string)                           (* tempfile.mkdtemp() *)
| EvWrite (path : string) (size : nat)               (* a file written *)
| EvRemove (path : string)                           (* os.remove *)
| EvRmdir (dir : string)                             (* os.rmdir *)
| EvSubprocess (command : string) (cwd : option string) (* create_subprocess_shell *)
| EvHttpPost (prompt : string).                      (* requests.post(LLM_ENDPOINT) *)

Record world : Type := mkWorld {
  files : gmap string (list byte);   (* regular files and their content *)
  dirs : list string;                (* directories created by mkdtemp *)
  trace : list event                 (* external events, oldest first *)
}.

(** ** The monad of Python computations *)

Inductive outcome (A : Type) : Type :=
| Ok (a : A)          (* normal return *)
| Raise (e : exn)     (* a Python exception propagates *)
| OutOfFuel.          (* the model's bound on a loop or on recursion ran out *)
Arguments Ok {A} a.
Arguments Raise {A} e.
Arguments OutOfFuel {A}.

Definition M (A : Type) : Type := world -> outcome A * world.

Definition ret {A} (a : A) : M A := fun w => (Ok a, w).

Definition raise {A} (e : exn) : M A := fun w => (Raise e, w).

Definition bind {A B} (m : M A) (k : A -> M B) : M B :=
  fun w =>
    match m w with
    | (Ok a, w') => k a w'
    | (Raise e, w') => (Raise e, w')
    | (OutOfFuel, w') => (OutOfFuel, w')
    end.

Declare Scope py_scope.
Delimit Scope py_scope with py.
Notation "x <- m ;; k" := (bind m (fun x => k))
  (at level 100, m at next level, right associativity) : py_scope.
Notation "m ;;; k" := (bind m (fun _ => k))
  (at level 100, right associativity) : py_scope.
Local Open Scope py_scope.

(** [try: body / except ...: handler].  The handler receives the exception
    and answers [None] when no clause matches, which re-raises it. *)
Definition try_except {A} (body : M A) (handler : exn -> option (M A)) : M A :=
  fun w =>
    match body w with
    | (Ok a, w') => (Ok a, w')
    | (Raise e, w') =>
        match handler e with
        | Some h => h w'
        | None => (Raise e, w')
        end
    | (OutOfFuel, w') => (OutOfFuel, w')
    end.

(** [try: body / finally: cleanup] *)
Definition try_finally {A} (body : M A) (cleanup : M unit) : M A :=
  fun w =>
    match body w with
    | (OutOfFuel, w') => (OutOfFuel, w')
    | (r, w') =>
        match cleanup w' with
        | (Ok _, w'') => (r, w'')
        | (Raise e, w'') => (Raise e, w'')
        | (OutOfFuel, w'') => (OutOfFuel, w'')
        end
    end.

Definition get_world : M world := fun w => (Ok w, w).
Definition log (e : event) : M unit :=
  fun w => (Ok tt, mkWorld (files w) (dirs w) (trace w ++ [e])).

(** What [await] is applied to: the coroutine an [async def] (or an
    aiofiles method) returns, or the plain value a synchronous call
    returns, tagged with the name of its type. *)
Inductive awaitable (A : Type) : Type :=
| Coroutine (m : M A)
| Plain (type_name : string) (v : A).
Arguments Coroutine {A} m.
Arguments Plain {A} type_name v.

(** [await x]: runs a coroutine; on any other object Python raises
    [TypeError: object <type> can't be used in 'await' expression]. *)
Definition await {A} (x : awaitable A) : M A :=
  match x with
  | Coroutine m => m
  | Plain ty _ =>
      raise (mkExn TypeError ("object " +:+ ty +:+ " can't be used in 'await' expression"))
  end.

(** ** hashlib.sha256

    The hash function itself (FIPS 180-4) on 32-bit words, each a [N]
    reduced modulo 2^32, and hashlib's object, whose digest is that of the
    concatenation of everything fed to [update]. *)

Module Sha256.
Local Open Scope N_scope.

Definition word_max : N := 0xFFFFFFFF.
Definition wrap (x : N) : N := N.land x word_max.
Definition add32 (x y : N) : N := wrap (x + y).
Definition rotr (n x : N) : N := N.lor (N.shiftr x n) (wrap (N.shiftl x (32 - n))).
Definition shr (n x : N) : N := N.shiftr x n.
Definition not32 (x : N) : N := N.lxor x word_max.

Definition Ch (x y z : N) : N := N.lxor (N.land x y) (N.land (not32 x) z).
Definition Maj (x y z : N) : N :=
  N.lxor (N.lxor (N.land x y) (N.land x z)) (N.land y z).
Definition bsig0 (x : N) : N := N.lxor (N.lxor (rotr 2 x) (rotr 13 x)) (rotr 22 x).
Definition bsig1 (x : N) : N := N.lxor (N.lxor (rotr 6 x) (rotr 11 x)) (rotr 25 x).
Definition ssig0 (x : N) : N := N.lxor (N.lxor (rotr 7 x) (rotr 18 x)) (shr 3 x).
Definition ssig1 (x : N) : N := N.lxor (N.lxor (rotr 17 x) (rotr 19 x)) (shr 10 x).

(** The largest [r] below [2 ^ bits] with [r ^ k <= x], found bit by bit
    from [r]. *)
Fixpoint root_bits (k : N) (bits : nat) (x r : N) : N :=
  match bits with
  | O => r
  | S b =>
      let c := N.lor r (N.shiftl 1 (N.of_nat b)) in
      if c ^ k <=? x then root_bits k b x c else root_bits k b x r
  end.

(** The first 32 bits of the fractional part of the [k]-th root of [p]. *)
Definition frac_root (k p : N) : N :=
  wrap (root_bits k 48 (N.shiftl p (32 * k)) 0).

Definition is_prime (n : N) : bool :=
  forallb (fun d => negb (n mod N.of_nat d =? 0)) (seq 2 (N.to_nat n - 2)).

(** The first 64 primes. *)
Definition primes : list N :=
  Eval vm_compute in firstn 64 (filter is_prime (map N.of_nat (seq 2 400))).

(** The round constants: from the cube roots of the first 64 primes. *)
Definition K : list N := Eval vm_compute in map (frac_root 3) primes.

(** The initial hash value: from the square roots of the first 8 primes. *)
Definition H0 : list N := Eval vm_compute in map (frac_root 2) (firstn 8 primes).

(** Big-endian bytes of a number, most significant first. *)
Fixpoint be_bytes (n : nat) (x : N) : list N :=
  match n with
  | O => []
  | S n' => N.land (N.shiftr x (8 * N.of_nat n')) 0xFF :: be_bytes n' x
  end.

Definition be_word (bs : list N) : N :=
  fold_left (fun acc b => N.lor (N.shiftl acc 8) b) bs 0.

(** Padding: a 1 bit, zeros, and the bit length on 64 bits. *)
Definition pad (msg : list N) : list N :=
  let len := length msg in
  msg ++ [0x80] ++ repeat 0 ((119 - len mod 64) mod 64)%nat
      ++ be_bytes 8 (8 * N.of_nat len).

(** Cut a list into [n] pieces of [size] elements. *)
Fixpoint pieces {A} (size n : nat) (l : list A) : list (list A) :=
  match n with
  | O => []
  | S n' => firstn size l :: pieces size n' (skipn size l)
  end.

(** Message schedule: the 16 words of the block extended to 64. *)
Fixpoint extend (steps : nat) (w : list N) : list N :=
  match steps with
  | O => w
  | S steps' =>
      let t := length w in
      let at_ i := nth (t - i) w 0 in
      extend steps'
        (w ++ [add32 (add32 (ssig1 (at_ 2%nat)) (at_ 7%nat))
                     (add32 (ssig0 (at_ 15%nat)) (at_ 16%nat))])
  end.

Definition schedule (block : list N) : list N :=
  extend 48 (map be_word (pieces 4 16 block)).

Record regs : Type := mkRegs { ra : N; rb : N; rc : N; rd : N; re : N; rf : N; rg : N; rh : N }.

Definition round (r : regs) (kw : N * N) : regs :=
  let t1 := add32 (add32 (add32 (rh r) (bsig1 (re r))) (add32 (Ch (re r) (rf r) (rg r)) (fst kw))) (snd kw) in
  let t2 := add32 (bsig0 (ra r)) (Maj (ra r) (rb r) (rc r)) in
  mkRegs (add32 t1 t2) (ra r) (rb r) (rc r) (add32 (rd r) t1) (re r) (rf r) (rg r).

Definition regs_of (h : list N) : regs :=
  mkRegs (nth 0 h 0) (nth 1 h 0) (nth 2 h 0) (nth 3 h 0)
         (nth 4 h 0) (nth 5 h 0) (nth 6 h 0) (nth 7 h 0).

Definition compress (h : list N) (block : list N) : list N :=
  let r := fold_left round (combine K (schedule block)) (regs_of h) in
  [add32 (nth 0 h 0) (ra r); add32 (nth 1 h 0) (rb r); add32 (nth 2 h 0) (rc r);
   add32 (nth 3 h 0) (rd r); add32 (nth 4 h 0) (re r); add32 (nth 5 h 0) (rf r);
   add32 (nth 6 h 0) (rg r); add32 (nth 7 h 0) (rh r)].

(** The 32-byte digest of a message. *)
Definition digest (msg : list byte) : list N :=
  let padded := pad (map Byte.to_N msg) in
  let h := fold_left compress (pieces 64 (length padded / 64) padded) H0 in
  flat_map (be_bytes 4) h.

Definition hex_digit (n : N) : ascii :=
  if n <? 10 then ascii_of_N (48 + n) else ascii_of_N (87 + n).

(** Two lowercase hexadecimal digits per byte. *)
Fixpoint hex (bs : list N) : string :=
  match bs with
  | [] => EmptyString
  | b :: t => String (hex_digit (N.shiftr b 4)) (String (hex_digit (N.land b 0xF)) (hex t))
  end.

(** The object [hashlib.sha256()] returns: the bytes fed so far. *)
Record hash_obj : Type := mkHash { fed : list byte }.

Definition new : hash_obj := mkHash [].
Definition update (h : hash_obj) (chunk : list byte) : hash_obj := mkHash (fed h ++ chunk).
Definition hexdigest (h : hash_obj) : string := hex (digest (fed h)).

End Sha256.

(** ** os.path *)

Module OsPath.
Import PyStr.

(** [os.path.join(a, b)] (posixpath) *)
Definition join (a b : string) : string :=
  if startswith b "/" then b
  else if String.eqb a EmptyString || endswith a "/" then a +:+ b
  else a +:+ "/" +:+ b.

(** Some character of [s] is not a dot. *)
Fixpoint has_non_dot (s : string) : bool :=
  match s with
  | EmptyString => false
  | String c t => negb (Ascii.eqb c ".") || has_non_dot t
  end.

(** [os.path.splitext(p)]: the extension starts at the last dot that
    follows the last separator, leading dots of the base name apart. *)
Definition splitext (p : string) : string * string :=
  let start := match rfind "/" p with Some s => S s | None => O end in
  match rfind "." p with
  | Some d =>
      if (start <=? d)%nat && has_non_dot (take (d - start) (drop start p))
      then (take d p, drop d p)
      else (p, EmptyString)
  | None => (p, EmptyString)
  end.

End OsPath.

(** ** Values of the external collaborators *)

(** What a call into a library answers: an exception or a value. *)
Definition result (A : Type) : Type := (exn + A)%type.

Definition lift {A} (r : result A) : M A :=
  match r with
  | inl e => raise e
  | inr a => ret a
  end.

(** A column label of a DataFrame: a [str], or an object of another type
    (spreadsheet headers may be numbers or dates). *)
Inductive label : Type :=
| LStr (s : string)
| LOther (type_name : string).

(** The part of a pandas DataFrame the summarizers look at. *)
Record DataFrame : Type := mkDataFrame {
  df_rows : nat;                              (* len(df) *)
  df_columns : list label;                    (* df.columns *)
  df_head_to_string : nat -> bool -> string   (* df.head(n).to_string(index=...) *)
}.

(** An entry of an archive: its name and what opening and reading it gives. *)
Record zip_member : Type := mkMember {
  zm_name : string;
  zm_read : result (list byte)
}.

(** A decoded JSON document.  Numbers are integers here; no claim looks at
    the value of a number. *)
Set Warnings "-register-all".
Inductive json : Type :=
| JNull
| JBool (b : bool)
| JNum (z : Z)
| JStr (s : string)
| JArr (items : list json)
| JObj (fields : list (string * json)).

(** The response object of [requests.post]; [resp_json] is [None] when the
    body is not JSON. *)
Record http_response : Type := mkResponse {
  status_code : Z;
  reason : string;
  resp_json : option json
}.

(** The external collaborators of one request. *)
Record Env : Type := mkEnv {
  secure_filename : string -> string;                    (* werkzeug.utils *)
  gettempdir : string;                                   (* tempfile.gettempdir() *)
  mkdtemp : string;                                      (* tempfile.mkdtemp() *)
  decode_text : list byte -> result string;              (* text mode read *)
  parse_csv : option nat -> list byte -> result DataFrame;   (* pd.read_csv(nrows) *)
  parse_excel : option nat -> list byte -> result (list (string * DataFrame));
                                                         (* pd.read_excel(nrows) *)
  zip_namelist : list byte -> result (list zip_member);  (* zipfile.ZipFile *)
  shell : string -> option string -> gmap string (list byte)
          -> result (Z * list byte * list byte);         (* returncode, stdout, stderr *)
  bytes_decode : list byte -> result string;             (* bytes.decode(): UTF-8, strict *)
  http_post : string -> string -> result http_response   (* system and user text *)
}.

Record UploadFile : Type := mkUpload {
  filename : string;
  content : list byte
}.

(** [JSONResponse(content={"answer": answer})] *)
Record JSONResponse : Type := mkJSONResponse { answer : string }.

(** ** Python's dynamic operations on decoded JSON *)

Module Py.

Definition type_name (v : json) : string :=
  match v with
  | JNull => "NoneType"
  | JBool _ => "bool"
  | JNum _ => "int"
  | JStr _ => "str"
  | JArr _ => "list"
  | JObj _ => "dict"
  end.

(** [bool(v)] *)
Definition truthy (v : json) : bool :=
  match v with
  | JNull => false
  | JBool b => b
  | JNum z => negb (Z.eqb z 0)
  | JStr s => negb (String.eqb s EmptyString)
  | JArr l => match l with [] => false | _ => true end
  | JObj l => match l with [] => false | _ => true end
  end.

(** Lookup in a decoded object: the last binding of a key wins. *)
Fixpoint dict_lookup (k : string) (fields : list (string * json)) : option json :=
  match fields with
  | [] => None
  | (k', v) :: rest =>
      match dict_lookup k rest with
      | Some v' => Some v'
      | None => if String.eqb k k' then Some v else None
      end
  end.

Definition not_subscriptable (v : json) : exn :=
  mkExn TypeError ("'" +:+ type_name v +:+ "' object is not subscriptable").

(** [v.get(key, default)] *)
Definition get (v : json) (key : string) (default : json) : result json :=
  match v with
  | JObj fields =>
      inr (match dict_lookup key fields with Some x => x | None => default end)
  | _ => inl (mkExn AttributeError
                ("'" +:+ type_name v +:+ "' object has no attribute 'get'"))
  end.

(** [v[0]] *)
Definition getitem0 (v : json) : result json :=
  match v with
  | JArr (x :: _) => inr x
  | JArr [] => inl (mkExn IndexError "list index out of range")
  | JStr (String c _) => inr (JStr (String c EmptyString))
  | JStr EmptyString => inl (mkExn IndexError "string index out of range")
  | JObj _ => inl (mkExn KeyError "0")
  | _ => inl (not_subscriptable v)
  end.

(** [v[key]] for a string key *)
Definition getitem (v : json) (key : string) : result json :=
  match v with
  | JObj fields =>
      match dict_lookup key fields with
      | Some x => inr x
      | None => inl (mkExn KeyError ("'" +:+ key +:+ "'"))
      end
  | JArr _ => inl (mkExn TypeError "list indices must be integers or slices, not str")
  | JStr _ => inl (mkExn TypeError "string indices must be integers, not 'str'")
  | _ => inl (not_subscriptable v)
  end.

(** [v.strip()] *)
Definition strip (v : json) : result string :=
  match v with
  | JStr s => inr (PyStr.strip s)
  | _ => inl (mkExn AttributeError
                ("'" +:+ type_name v +:+ "' object has no attribute 'strip'"))
  end.

End Py.

(** ** File system primitives *)

Definition no_such_file (path : string) : exn :=
  mkExn FileNotFoundError ("[Errno 2] No such file or directory: '" +:+ path +:+ "'").

(** Opening a file for reading and reading all of it. *)
Definition read_file (path : string) : M (list byte) :=
  fun w =>
    match files w !! path with
    | Some bytes => (Ok bytes, w)
    | None => (Raise (no_such_file path), w)
    end.

(** [aiofiles.open(path, 'wb')] followed by [write(data)]. *)
Definition write_file (path : string) (data : list byte) : M unit :=
  fun w =>
    (Ok tt, mkWorld (<[path := data]> (files w)) (dirs w)
                    (trace w ++ [EvWrite path (length data)])).

(** [os.path.exists(path)] *)
Definition path_exists (path : string) : M bool :=
  fun w =>
    (Ok (match files w !! path with
         | Some _ => true
         | None => existsb (String.eqb path) (dirs w)
         end), w).

(** [os.path.getsize(path)] *)
Definition getsize (path : string) : M Z :=
  fun w =>
    match files w !! path with
    | Some bytes => (Ok (Z.of_nat (length bytes)), w)
    | None => (Raise (no_such_file path), w)
    end.

(** [os.remove(path)] *)
Definition os_remove (path : string) : M unit :=
  fun w =>
    match files w !! path with
    | Some _ =>
        (Ok tt, mkWorld (delete path (files w)) (dirs w) (trace w ++ [EvRemove path]))
    | None => (Raise (no_such_file path), w)
    end.

(** [os.rmdir(dir)] (the directory of a request holds nothing but the
    upload, which is removed first) *)
Definition os_rmdir (dir : string) : M unit :=
  fun w =>
    if existsb (String.eqb dir) (dirs w)
    then (Ok tt, mkWorld (files w)
                         (filter (fun d => negb (String.eqb dir d)) (dirs w))
                         (trace w ++ [EvRmdir dir]))
    else (Raise (no_such_file dir), w).


(** ** Configuration *)

Definition ALLOWED_EXTENSIONS : gset string :=
  {[ "csv"; "xlsx"; "xls"; "zip"; "md" ]}.

Definition MAX_FILE_SIZE : Z := 50 * 1024 * 1024.

Definition LLM_ENDPOINT : string :=
  "https://llmfoundry.straive.com/gemini/v1beta/models/gemini-2.0-flash-001:generateContent".

(** ** The functions of app.py *)

Import PyStr.

(** [is_file_allowed]: a plain [def], so a call returns a [bool]. *)
Definition is_file_allowed (filename : string) : bool :=
  existsb (fun ext => endswith (lower filename) ext) (elements ALLOWED_EXTENSIONS).

Definition extension_map : gmap string string :=
  {[ ".zip" := "zip"; ".csv" := "csv"; ".xlsx" := "excel"; ".xls" := "excel"; ".md" := "md" ]}.

Section App.

Context (env : Env).

(** [pd.read_csv(file_path, nrows=...)] *)
Definition pd_read_csv (file_path : string) (nrows : option nat) : M DataFrame :=
  bytes <- read_file file_path ;;
  lift (parse_csv env nrows bytes).

(** [pd.read_excel(file_path, nrows=...)] *)
Definition pd_read_excel (file_path : string) (nrows : option nat)
  : M (list (string * DataFrame)) :=
  bytes <- read_file file_path ;;
  lift (parse_excel env nrows bytes).

Definition identify_file_type (file_path : string) : M string :=
  let extension := lower (snd (OsPath.splitext file_path)) in
  match extension_map !! extension with
  | Some file_type => ret file_type
  | None =>
      probed <-
        try_except
          (pd_read_csv file_path (Some 1%nat) ;;; ret (Some "csv"))
          (fun e =>
             if isinstance (exn_cls e) EmptyDataError then Some (ret None)
             else
               Some (try_except
                       (pd_read_excel file_path (Some 1%nat) ;;; ret (Some "excel"))
                       (fun _ => Some (ret None)))) ;;
      match probed with
      | Some file_type => ret file_type
      | None => ret "unknown"
      end
  end.

(** [', '.join(df.columns)]: raises on the first label that is not a [str]. *)
Fixpoint join_labels_from (i : nat) (cols : list label) : result (list string) :=
  match cols with
  | [] => inr []
  | LStr s :: rest =>
      match join_labels_from (S i) rest with
      | inr l => inr (s :: l)
      | inl e => inl e
      end
  | LOther ty :: _ =>
      inl (mkExn TypeError ("sequence item " +:+ of_nat i
                              +:+ ": expected str instance, " +:+ ty +:+ " found"))
  end.

Definition join_columns (df : DataFrame) : M string :=
  l <- lift (join_labels_from 0 (df_columns df)) ;;
  ret (join ", " l).

Definition handle_csv_file (csv_path : string) (num_preview_rows : nat) : M string :=
  try_except
    (df <- pd_read_csv csv_path None ;;
     let num_rows := df_rows df in
     let num_columns := length (df_columns df) in
     columns <- join_columns df ;;
     ret ("CSV file with " +:+ of_nat num_rows +:+ " rows and "
            +:+ of_nat num_columns +:+ " columns." +:+ nl
            +:+ "Columns: " +:+ columns +:+ "." +:+ nl
            +:+ "First " +:+ of_nat num_preview_rows +:+ " rows:" +:+ nl
            +:+ df_head_to_string df num_preview_rows false))
    (fun e =>
       if isinstance (exn_cls e) FileNotFoundError then
         Some (ret ("Error: The file '" +:+ csv_path +:+ "' was not found."))
       else if isinstance (exn_cls e) EmptyDataError then
         Some (ret "Error: The file is empty.")
       else if isinstance (exn_cls e) ParserError then
         Some (ret "Error: There was a problem parsing the file.")
       else Some (ret ("Error processing CSV: " +:+ str_exn e))).

(** The report of one sheet (the body of the list comprehension). *)
Definition sheet_report (sheet : string * DataFrame) : M string :=
  let '(sheet_name, df) := sheet in
  columns <- join_columns df ;;
  ret ("Sheet '" +:+ sheet_name +:+ "' has " +:+ of_nat (df_rows df)
         +:+ " rows and " +:+ of_nat (length (df_columns df)) +:+ " columns. "
         +:+ "Columns: " +:+ columns +:+ ". First few rows:" +:+ nl
         +:+ df_head_to_string df 5 true).

Fixpoint sheet_reports (sheets : list (string * DataFrame)) : M (list string) :=
  match sheets with
  | [] => ret []
  | sheet :: rest =>
      r <- sheet_report sheet ;;
      rs <- sheet_reports rest ;;
      ret (r :: rs)
  end.

Definition handle_excel_file (excel_path : string) : M string :=
  try_except
    (sheets_dict <- pd_read_excel excel_path None ;;
     info <- sheet_reports sheets_dict ;;
     ret (join (nl +:+ nl) info))
    (fun e =>
       if isinstance (exn_cls e) FileNotFoundError then
         Some (ret ("Error: The file '" +:+ excel_path +:+ "' was not found."))
       else if isinstance (exn_cls e) EmptyDataError then
         Some (ret "Error: The Excel file is empty.")
       else Some (ret ("Error processing Excel file: " +:+ str_exn e))).

Definition handleMarkdownFile (md_path : string) : M string :=
  try_except
    (bytes <- read_file md_path ;;
     content <- await (Coroutine (lift (decode_text env bytes))) ;;
     ret ("Markdown file content:" +:+ nl +:+ content))
    (fun e =>
       if isinstance (exn_cls e) FileNotFoundError then
         Some (ret "Error: The specified Markdown file was not found.")
       else if isinstance (exn_cls e) OSError then
         Some (ret ("Error reading Markdown file: " +:+ str_exn e))
       else Some (ret ("An unexpected error occurred: " +:+ str_exn e))).

(** The [for] loop of [handle_zip_file] over [zip_ref.namelist()];
    [collect] is [collect_file_data], which the loop calls back. *)
Fixpoint zip_entries (collect : string -> M string) (members : list zip_member)
         (info : list string) : M (list string) :=
  match members with
  | [] => ret info
  | member :: rest =>
      let file := zm_name member in
      if endswith file "/" then zip_entries collect rest info
      else
        (* with zip_ref.open(file) as f: file_content = await f.read()
           [f] is zipfile's synchronous reader: [f.read()] returns bytes *)
        read <- lift (zm_read member) ;;
        file_content <- await (Plain "bytes" read) ;;
        let temp_path := OsPath.join (gettempdir env) (secure_filename env file) in
        await (Coroutine (write_file temp_path file_content)) ;;;
        file_info <- await (Coroutine (collect temp_path)) ;;
        let info := info ++ ["File '" +:+ file +:+ "' in ZIP contains:" +:+ nl +:+ file_info] in
        os_remove temp_path ;;;
        zip_entries collect rest info
  end.

(** [zip_namelist] stands for [zipfile.ZipFile(zip_file, 'r')] followed
    by [namelist()]; it answers an exception when the archive cannot be
    opened, as with the aiofiles handle that line 100 passes, whose
    [seek] and [read] return coroutines. *)
Definition handle_zip_file (collect : string -> M string) (zip_path : string) : M string :=
  try_except
    (bytes <- read_file zip_path ;;
     members <- lift (zip_namelist env bytes) ;;
     info <- zip_entries collect members [] ;;
     ret (join nl info))
    (fun e => Some (ret ("Error processing ZIP file: " +:+ str_exn e))).

(** The functions [processing_functions] maps a file type to. *)
Inductive handler : Type :=
| Handle_zip_file
| Handle_csv_file
| Handle_excel_file
| HandleMarkdownFile.

Definition processing_functions : gmap string handler :=
  {[ "zip" := Handle_zip_file; "csv" := Handle_csv_file;
     "excel" := Handle_excel_file; "md" := HandleMarkdownFile ]}.

(** [collect_file_data] and [handle_zip_file] call each other; [depth]
    bounds the nesting of archives the model follows. *)
Fixpoint collect_file_data (depth : nat) (file_path : string) : M string :=
  match depth with
  | O => fun w => (OutOfFuel, w)
  | S depth' =>
      file_type <- await (Coroutine (identify_file_type file_path)) ;;
      match processing_functions !! file_type with
      | Some process_function =>
          await (Coroutine
                   match process_function with
                   | Handle_zip_file =>
                       handle_zip_file (collect_file_data depth') file_path
                   | Handle_csv_file => handle_csv_file file_path 5
                   | Handle_excel_file => handle_excel_file file_path
                   | HandleMarkdownFile => handleMarkdownFile file_path
                   end)
      | None => ret "Unsupported file type"
      end
  end.

End App.

Section Endpoint.

Context (env : Env).

Definition run_command (command : string) (cwd : option string) : M string :=
  try_except
    (log (EvSubprocess command cwd) ;;;
     w <- get_world ;;
     finished <- lift (shell env command cwd (files w)) ;;
     let '(returncode, stdout, stderr) := finished in
     if negb (Z.eqb returncode 0) then
       output <- lift (bytes_decode env stderr) ;;
       ret ("Error: Command failed with exit code " +:+ of_Z returncode
              +:+ ". Output: " +:+ strip output)
     else
       output <- lift (bytes_decode env stdout) ;;
       ret (strip output))
    (fun e =>
       if isinstance (exn_cls e) AsyncTimeoutError then
         Some (ret "Error: Command execution timed out.")
       else Some (ret ("Error executing command: " +:+ str_exn e))).

Set Warnings "-abstract-large-number".

(** The [while True] loop of [compute_sha256]: [rest] is what the open
    file still holds, [f.read(8192)] takes its first 8192 bytes.  [fuel]
    bounds the number of iterations. *)
Fixpoint read_chunks (fuel : nat) (rest : list byte) (sha256_hash : Sha256.hash_obj)
  : M Sha256.hash_obj :=
  match fuel with
  | O => fun w => (OutOfFuel, w)
  | S fuel' =>
      chunk <- await (Coroutine (ret (firstn 8192 rest))) ;;
      match chunk with
      | [] => ret sha256_hash
      | _ => read_chunks fuel' (skipn 8192 rest) (Sha256.update sha256_hash chunk)
      end
  end.

Definition compute_sha256 (file_path : string) : M string :=
  let sha256_hash := Sha256.new in
  try_except
    (bytes <- read_file file_path ;;
     sha256_hash <- read_chunks (S (length bytes)) bytes sha256_hash ;;
     ret (Sha256.hexdigest sha256_hash))
    (fun e => Some (ret ("Error calculating SHA256: " +:+ str_exn e))).

Definition system_prompt : string :=
  "You are an expert Data Science teaching assistant for an online Degree in Data Science program. "
  +:+ "Your task is to provide precise answers to graded assignment questions, ensuring they match exactly what is expected."
  +:+ nl +:+ nl
  +:+ "Key guidelines:" +:+ nl
  +:+ "1. Provide exact answers without additional text or explanations." +:+ nl
  +:+ "2. For numerical answers, give the exact number." +:+ nl
  +:+ "3. For file-based questions, analyze the provided file information and perform necessary calculations or commands, providing the result." +:+ nl
  +:+ "4. For command outputs, provide the exact output as it would appear, not a description or example. If execution is not possible, give a realistic lookalike output." +:+ nl
  +:+ "5. For Google Sheets formulas, calculate the result and provide the numerical answer." +:+ nl
  +:+ "6. For multi-step questions, break down the steps and provide the final answer.".

(** The user message of the request to the model. *)
Definition message_prompt (question : string) (file_info : option string) : string :=
  let attached_file_info :=
    match file_info with
    | Some (String _ _ as info) => "Attached file information:" +:+ nl +:+ info +:+ nl
    | _ => EmptyString
    end in
  "Assignment question: " +:+ question +:+ nl +:+ nl
  +:+ attached_file_info
  +:+ "Please provide the exact answer to be entered in the assignment.".

(** [response.raise_for_status()] *)
Definition raise_for_status (response : http_response) : M unit :=
  let code := status_code response in
  if ((400 <=? code) && (code <? 500))%Z then
    raise (mkExn RequestException
             (of_Z code +:+ " Client Error: " +:+ reason response
                +:+ " for url: " +:+ LLM_ENDPOINT))
  else if ((500 <=? code) && (code <? 600))%Z then
    raise (mkExn RequestException
             (of_Z code +:+ " Server Error: " +:+ reason response
                +:+ " for url: " +:+ LLM_ENDPOINT))
  else ret tt.

(** [response.json()]: requests raises its own [JSONDecodeError], a
    [RequestException], on a body that is not JSON. *)
Definition response_json (response : http_response) : M json :=
  match resp_json response with
  | Some v => ret v
  | None => raise (mkExn RequestException "Expecting value: line 1 column 1 (char 0)")
  end.

Definition generate_response (question : string) (file_info : option string) : M string :=
  let prompt := message_prompt question file_info in
  try_except
    (log (EvHttpPost prompt) ;;;
     response <- lift (http_post env system_prompt prompt) ;;
     raise_for_status response ;;;
     body <- response_json response ;;
     candidates <- lift (Py.get body "candidates" (JArr [])) ;;
     if Py.truthy candidates then
       first <- lift (Py.getitem0 candidates) ;;
       content <- lift (Py.getitem first "content") ;;
       parts <- lift (Py.getitem content "parts") ;;
       part <- lift (Py.getitem0 parts) ;;
       text <- lift (Py.getitem part "text") ;;
       lift (Py.strip text)
     else ret "Error: Could not extract answer from model response")
    (fun e =>
       if isinstance (exn_cls e) RequestException then
         Some (ret ("Error calling LLM API: " +:+ str_exn e))
       else None).

(** [await file.read()] on the upload. *)
Definition upload_read (file : UploadFile) : M (list byte) :=
  log (EvUploadRead (filename file)) ;;;
  ret (content file).

(** [tempfile.mkdtemp()] *)
Definition tempfile_mkdtemp : M string :=
  fun w =>
    (Ok (mkdtemp env),
     mkWorld (files w) (mkdtemp env :: dirs w) (trace w ++ [EvMkdtemp (mkdtemp env)])).

(** Lines 306-312: the questions answered locally.  The result is the
    value [answer] has afterwards ([None] when no branch is taken). *)
Definition local_answer (question file_type file_path temp_dir : string)
  : M (option string) :=
  if contains (lower question) "sha256sum" && String.eqb file_type "md" then
    a <- await (Coroutine (compute_sha256 file_path)) ;;
    ret (Some a)
  else if contains (lower question) "prettier"
          && contains (lower question) "sha256sum" && String.eqb file_type "md" then
    let prettier_command := "npx -y prettier@3.4.2 " +:+ file_path +:+ " | sha256sum" in
    a <- await (Coroutine (run_command prettier_command (Some temp_dir))) ;;
    ret (Some a)
  else if contains (lower question) "code -s" then
    a <- await (Coroutine (run_command "code -s" None)) ;;
    ret (Some a)
  else ret None.

(** Lines 314-319: the [finally] block. *)
Definition cleanup_upload (file_path temp_dir : string) : M unit :=
  file_there <- path_exists file_path ;;
  (if file_there then os_remove file_path else ret tt) ;;;
  dir_there <- path_exists temp_dir ;;
  if dir_there then os_rmdir temp_dir else ret tt.

(** Lines 287-319: what the handler does with an upload once the
    validation of line 284 has let it through.  The result is the pair
    of [answer] and [file_info] as they stand after the [finally];
    [depth] is the bound handed to [collect_file_data]. *)
Definition process_upload (depth : nat) (question : string) (file : UploadFile)
  : M (option string * option string) :=
  temp_dir <- tempfile_mkdtemp ;;
  let file_path := OsPath.join temp_dir (secure_filename env (filename file)) in
  try_finally
    (content <- await (Coroutine (upload_read file)) ;;
     await (Coroutine (write_file file_path content)) ;;;
     size <- getsize file_path ;;
     if (size >? MAX_FILE_SIZE)%Z then
       raise (mkExn (HTTPException 400) "File too large")
     else
       file_type <- await (Coroutine (identify_file_type env file_path)) ;;
       file_info <- await (Coroutine (collect_file_data env depth file_path)) ;;
       answer <- local_answer question file_type file_path temp_dir ;;
       ret (answer, Some file_info))
    (cleanup_upload file_path temp_dir).

(** The endpoint.  [file] is [None] when the request has no attachment;
    an [UploadFile] object is always true in [if file:].  [depth] is the
    bound handed to [collect_file_data]. *)
Definition answer_question (depth : nat) (question : string) (file : option UploadFile)
  : M JSONResponse :=
  processed <-
    match file with
    | Some file =>
        allowed <- await (Plain "bool" (is_file_allowed (filename file))) ;;
        if negb allowed then raise (mkExn (HTTPException 400) "Invalid file type")
        else process_upload depth question file
    | None => ret (None, None)
    end ;;
  let '(answer, file_info) := processed in
  answer <-
    match answer with
    | None => await (Coroutine (generate_response question file_info))
    | Some a => ret a
    end ;;
  ret (mkJSONResponse answer).

End Endpoint.

(** ** A concrete environment for closed examples

    Stand-ins for the collaborators: [secure_filename] keeps a name that is
    already safe, pandas reports empty data on an empty file (as pandas
    does) and one fixed frame otherwise, nothing is a spreadsheet, and the
    archive reader and the model answer what the example passes in. *)

Definition stub_frame : DataFrame :=
  mkDataFrame 1 [LStr "a"; LStr "b"] (fun _ _ => "1 2").

Definition ok_response (text : string) : http_response :=
  mkResponse 200 "OK"
    (Some (JObj [("candidates",
                  JArr [JObj [("content",
                               JObj [("parts", JArr [JObj [("text", JStr text)]])])]])])).

Definition stub_env (members : result (list zip_member))
           (posted : result http_response) : Env :=
  {| secure_filename := fun name => name;
     gettempdir := "/tmp";
     mkdtemp := "/tmp/tmpq1";
     decode_text := fun bytes => inr (string_of_list_byte bytes);
     parse_csv := fun _ bytes =>
       match bytes with
       | [] => inl (mkExn EmptyDataError "No columns to parse from file")
       | _ => inr stub_frame
       end;
     parse_excel := fun _ _ =>
       inl (mkExn ValueError "Excel file format cannot be determined");
     zip_namelist := fun _ => members;
     shell := fun _ _ _ =>
       inr (0, list_byte_of_string ("Version: Code 1.96.2" +:+ nl), []);
     bytes_decode := fun bytes => inr (string_of_list_byte bytes);
     http_post := fun _ _ => posted |}.

Definition env0 : Env := stub_env (inr []) (inr (ok_response "42")).

Definition empty_world : world := mkWorld ∅ [] [].

(** * Definitions the statements use *)

(** [quiet m]: in every world [m] returns or raises, within the model's
    bounds, and the world afterwards is the world before. *)
Definition quiet {A} (m : M A) : Prop :=
  forall w, exists r, m w = (r, w) /\ r <> OutOfFuel.

(** [returns m]: [quiet], and the outcome is a normal return. *)
Definition returns {A} (m : M A) : Prop :=
  forall w, exists a, m w = (Ok a, w).

(** What [await is_file_allowed(...)] raises. *)
Definition await_bool_error : exn :=
  mkExn TypeError "object bool can't be used in 'await' expression".

(** The world after one more event. *)
Definition logged (w : world) (e : event) : world :=
  mkWorld (files w) (dirs w) (trace w ++ [e]).

(** The outcome of a computation, mapped through [f] when it is a return. *)
Definition outcome_map {A B} (f : A -> B) (r : outcome A) : outcome B :=
  match r with
  | Ok a => Ok (f a)
  | Raise e => Raise e
  | OutOfFuel => OutOfFuel
  end.

(** The claim of the spec about a question on [code -s] without a file:
    the diagnostic command runs and the model is not called. *)
Definition runs_code_s_locally (env : Env) (depth : nat) (question : string)
           (w : world) : Prop :=
  let w' := snd (answer_question env depth question None w) in
  In (EvSubprocess "code -s" None) (trace w')
  /\ forall prompt, ~ In (EvHttpPost prompt) (trace w').

(** A response whose first candidate carries no content (what the model
    service sends when it withholds an answer). *)
Definition withheld_response : http_response :=
  mkResponse 200 "OK"
    (Some (JObj [("candidates", JArr [JObj [("finishReason", JStr "SAFETY")]])])).

(** An entry the loop does not skip. *)
Definition is_file_entry (member : zip_member) : bool :=
  negb (endswith (zm_name member) "/").

(** What awaiting the bytes of an entry raises. *)
Definition await_bytes_error : exn :=
  mkExn TypeError "object bytes can't be used in 'await' expression".


(** An archive with the directory [docs/] and the file [notes.md]. *)
Definition one_file_archive : list zip_member :=
  [mkMember "docs/" (inr []); mkMember "notes.md" (inr [x23; x20; x68; x69]%byte)].

Definition archive_world : world :=
  mkWorld (<["/up/a.zip" := [x50; x4b; x03; x04]%byte]> ∅) [] [].

(** The claim of the spec about an empty file of unknown extension. *)
Definition empty_file_is_csv (env : Env) (file_path : string) (w : world) : Prop :=
  extension_map !! lower (snd (OsPath.splitext file_path)) = None ->
  (exists msg, fst (pd_read_csv env file_path (Some 1%nat) w)
               = Raise (mkExn EmptyDataError msg)) ->
  fst (identify_file_type env file_path w) = Ok "csv".

Definition empty_file_world : world :=
  mkWorld (<["/up/data" := []]> ∅) [] [].

(** The first rule of the dispatch. *)
Definition sha256sum_rule (question file_type : string) : bool :=
  contains (lower question) "sha256sum" && String.eqb file_type "md".

(** The second rule of the dispatch. *)
Definition prettier_rule (question file_type : string) : bool :=
  contains (lower question) "prettier"
  && contains (lower question) "sha256sum" && String.eqb file_type "md".

(** The command the second rule would run. *)
Definition prettier_command (file_path : string) : string :=
  "npx -y prettier@3.4.2 " +:+ file_path +:+ " | sha256sum".

(** Where the upload is saved. *)
Definition upload_path (env : Env) (file : UploadFile) : string :=
  OsPath.join (mkdtemp env) (secure_filename env (filename file)).

(** The world once the upload has been saved (line 295). *)
Definition saved_world (env : Env) (file : UploadFile) (w : world) : world :=
  mkWorld (<[upload_path env file := content file]> (files w))
          (mkdtemp env :: dirs w)
          (((trace w ++ [EvMkdtemp (mkdtemp env)])
              ++ [EvUploadRead (filename file)])
             ++ [EvWrite (upload_path env file) (length (content file))]).

(** The world after the [finally] block has removed file and directory. *)
Definition cleaned (file_path temp_dir : string) (w : world) : world :=
  mkWorld (delete file_path (files w))
          (filter (fun d => negb (String.eqb temp_dir d)) (dirs w))
          ((trace w ++ [EvRemove file_path]) ++ [EvRmdir temp_dir]).

(** What follows the size check (lines 301-312). *)
Definition classify_and_answer (env : Env) (depth : nat) (question : string)
           (file_path temp_dir : string) : M (option string * option string) :=
  file_type <- await (Coroutine (identify_file_type env file_path)) ;;
  file_info <- await (Coroutine (collect_file_data env depth file_path)) ;;
  answer <- local_answer env question file_type file_path temp_dir ;;
  ret (answer, Some file_info).

(** An event that is no command, or is the command [code -s]. *)
Definition plain_event (e : event) : bool :=
  match e with
  | EvSubprocess command _ => String.eqb command "code -s"
  | _ => true
  end.

(** A run of the external formatter. *)
Definition formatter_event (e : event) : Prop :=
  exists file_path cwd, e = EvSubprocess (prettier_command file_path) cwd.

(** [w'] has the trace of [w] and then plain events only. *)
Definition adds_plain_events (w w' : world) : Prop :=
  exists events, trace w' = trace w ++ events /\ forallb plain_event events = true.

(** A lowercase hexadecimal digit. *)
Definition is_lower_hex (c : ascii) : bool :=
  let n := nat_of_ascii c in
  ((48 <=? n) && (n <=? 57) || (97 <=? n) && (n <=? 102))%nat.

(** Every character of [s] satisfies [p]. *)
Fixpoint all_chars (p : ascii -> bool) (s : string) : bool :=
  match s with
  | EmptyString => true
  | String c t => p c && all_chars p t
  end.

Definition empty_md_world : world := mkWorld (<["/up/empty.md" := []]> ∅) [] [].

(** ** Texts and examples for the summaries and the commands *)

(** A column label that is a [str]. *)
Definition is_str (l : label) : bool :=
  match l with
  | LStr _ => true
  | LOther _ => false
  end.

(** The labels that are strings, in order. *)
Definition str_labels (cols : list label) : list string :=
  flat_map (fun l => match l with LStr s => [s] | LOther _ => [] end) cols.

(** The text of the [TypeError] of [str.join] on item [i] of type [ty]. *)
Definition join_error (i : nat) (ty : string) : string :=
  "sequence item " +:+ of_nat i +:+ ": expected str instance, " +:+ ty +:+ " found".

(** The summary [handle_csv_file] builds from a frame. *)
Definition csv_summary (df : DataFrame) (num_preview_rows : nat) : string :=
  "CSV file with " +:+ of_nat (df_rows df) +:+ " rows and "
    +:+ of_nat (length (df_columns df)) +:+ " columns." +:+ nl
    +:+ "Columns: " +:+ join ", " (str_labels (df_columns df)) +:+ "." +:+ nl
    +:+ "First " +:+ of_nat num_preview_rows +:+ " rows:" +:+ nl
    +:+ df_head_to_string df num_preview_rows false.

(** The report on one sheet of a workbook. *)
Definition sheet_summary (sheet : string * DataFrame) : string :=
  "Sheet '" +:+ fst sheet +:+ "' has " +:+ of_nat (df_rows (snd sheet))
    +:+ " rows and " +:+ of_nat (length (df_columns (snd sheet))) +:+ " columns. "
    +:+ "Columns: " +:+ join ", " (str_labels (df_columns (snd sheet)))
    +:+ ". First few rows:" +:+ nl
    +:+ df_head_to_string (snd sheet) 5 true.

(** Every column label of the frame is a [str]. *)
Definition all_str_labels (df : DataFrame) : bool := forallb is_str (df_columns df).

(** A workbook of two sheets, the second with a number as a header. *)
Definition numeric_header_sheets : list (string * DataFrame) :=
  [("Totals", mkDataFrame 2 [LStr "region"; LStr "total"] (fun _ _ => "north 10"));
   ("Years", mkDataFrame 2 [LStr "city"; LOther "int"] (fun _ _ => "Oslo 7"))].

(** [env0] with a spreadsheet reader that answers that workbook. *)
Definition workbook_env : Env :=
  {| secure_filename := secure_filename env0;
     gettempdir := gettempdir env0;
     mkdtemp := mkdtemp env0;
     decode_text := decode_text env0;
     parse_csv := parse_csv env0;
     parse_excel := fun _ _ => inr numeric_header_sheets;
     zip_namelist := zip_namelist env0;
     shell := shell env0;
     bytes_decode := bytes_decode env0;
     http_post := http_post env0 |}.

(** A workbook of two sheets with string headers, and [env0] with a
    spreadsheet reader that answers it. *)
Definition plain_sheets : list (string * DataFrame) :=
  [("Totals", mkDataFrame 2 [LStr "region"; LStr "total"] (fun _ _ => "north 10"));
   ("Cities", mkDataFrame 1 [LStr "city"] (fun _ _ => "Oslo"))].

Definition plain_workbook_env : Env :=
  {| secure_filename := secure_filename env0;
     gettempdir := gettempdir env0;
     mkdtemp := mkdtemp env0;
     decode_text := decode_text env0;
     parse_csv := parse_csv env0;
     parse_excel := fun _ _ => inr plain_sheets;
     zip_namelist := zip_namelist env0;
     shell := shell env0;
     bytes_decode := bytes_decode env0;
     http_post := http_post env0 |}.

(** A world with the file [/up/data.csv]. *)
Definition csv_world : world :=
  mkWorld (<["/up/data.csv" := [x61; x2c; x62; x0a; x31; x2c; x32; x0a]%byte]> ∅) [] [].

(** A world with the file [/up/book.xlsx]. *)
Definition workbook_world : world :=
  mkWorld (<["/up/book.xlsx" := [x50; x4b; x03; x04]%byte]> ∅) [] [].

(** A world with the file [/up/README.MD]. *)
Definition readme_world : world :=
  mkWorld (<["/up/README.MD" := [x23; x20; x68; x69]%byte]> ∅) [] [].

(** What [handleMarkdownFile] makes of the decoded content of a file. *)
Definition markdown_text (decoded : result string) : string :=
  match decoded with
  | inr text => "Markdown file content:" +:+ nl +:+ text
  | inl e =>
      if isinstance (exn_cls e) FileNotFoundError
      then "Error: The specified Markdown file was not found."
      else if isinstance (exn_cls e) OSError
           then "Error reading Markdown file: " +:+ str_exn e
           else "An unexpected error occurred: " +:+ str_exn e
  end.

(** [s] begins with the character [c]. *)
Definition starts_with (c : ascii) (s : string) : bool :=
  match s with
  | String a _ => Ascii.eqb a c
  | EmptyString => false
  end.

(** Neither end of [s] is a white space character. *)
Definition trimmed (s : string) : Prop :=
  leading_space s = None /\ trailing_space s = None.

(** [env0] with a model that pads its answer with blanks. *)
Definition padded_text : string :=
  utf8 0xA0 +:+ " 42" +:+ utf8 0x2003 +:+ nl.

Definition padded_answer_env : Env :=
  stub_env (inr []) (inr (ok_response padded_text)).

(** * Properties *)

(** ** The model evaluated *)

Example sha256_empty :
  Sha256.hexdigest Sha256.new
  = "e3b0c44298fc1c149afbf4c8996fb92427ae41e4649b934ca495991b7852b855".
Proof. vm_compute. reflexivity. Qed.

Example sha256_abc :
  Sha256.hexdigest (Sha256.update Sha256.new [x61; x62; x63]%byte)
  = "ba7816bf8f01cfea414140de5dae2223b00361a396177a9cb410ff61f20015ad".
Proof. vm_compute. reflexivity. Qed.

Example sha256_two_blocks :
  Sha256.hexdigest (Sha256.update Sha256.new (repeat x61%byte 100))
  = "2816597888e4a0d3a36b82b83316ab32680eb8f00f8cd3b904d681246d285a0e".
Proof. vm_compute. reflexivity. Qed.

Example splitext_plain : OsPath.splitext "/tmp/x/data.CSV" = ("/tmp/x/data", ".CSV").
Proof. reflexivity. Qed.
Example splitext_hidden : OsPath.splitext "/tmp/x/.md" = ("/tmp/x/.md", EmptyString).
Proof. reflexivity. Qed.
Example splitext_dir_dot : OsPath.splitext "/tmp.d/data" = ("/tmp.d/data", EmptyString).
Proof. reflexivity. Qed.

(** ** Computations that leave the world alone *)

Lemma returns_quiet {A} (m : M A) : returns m -> quiet m.
Proof. intros H w. destruct (H w) as [a Ha]. exists (Ok a). split; [exact Ha | discriminate]. Qed.

Lemma returns_ret {A} (a : A) : returns (ret a).
Proof. intros w. exists a. reflexivity. Qed.

Lemma quiet_raise {A} (e : exn) : quiet (@raise A e).
Proof. intros w. exists (Raise e). split; [reflexivity | discriminate]. Qed.

Lemma quiet_lift {A} (r : result A) : quiet (lift r).
Proof. destruct r; [apply quiet_raise | apply returns_quiet, returns_ret]. Qed.

Lemma quiet_bind {A B} (m : M A) (k : A -> M B) :
  quiet m -> (forall a, quiet (k a)) -> quiet (bind m k).
Proof.
  intros Hm Hk w. unfold bind.
  destruct (Hm w) as [r [-> Hr]].
  destruct r as [a | e |]; [apply Hk | | congruence].
  exists (Raise e). split; [reflexivity | discriminate].
Qed.

Lemma quiet_await_plain {A} (ty : string) (v : A) : quiet (await (Plain ty v)).
Proof. apply quiet_raise. Qed.

Lemma quiet_read_file (path : string) : quiet (read_file path).
Proof.
  intros w. unfold read_file. destruct (files w !! path).
  - eexists. split; [reflexivity | discriminate].
  - eexists. split; [reflexivity | discriminate].
Qed.

(** A [try] whose clauses catch every exception and themselves return. *)
Lemma returns_try_except {A} (body : M A) (handler : exn -> option (M A)) :
  quiet body ->
  (forall e, exists h, handler e = Some h /\ returns h) ->
  returns (try_except body handler).
Proof.
  intros Hb Hh w. unfold try_except.
  destruct (Hb w) as [r [-> Hr]].
  destruct r as [a | e |]; [eauto | | congruence].
  destruct (Hh e) as [h [-> Hret]]. apply Hret.
Qed.

Lemma returns_bind {A B} (m : M A) (k : A -> M B) :
  returns m -> (forall a, returns (k a)) -> returns (bind m k).
Proof.
  intros Hm Hk w. unfold bind. destruct (Hm w) as [a ->]. apply Hk.
Qed.

(** ** Running a computation step by step *)

Lemma bind_ok {A B} (m : M A) (k : A -> M B) (w w' : world) (a : A) :
  m w = (Ok a, w') -> bind m k w = k a w'.
Proof. intros H. unfold bind. rewrite H. reflexivity. Qed.

Lemma bind_raise {A B} (m : M A) (k : A -> M B) (w w' : world) (e : exn) :
  m w = (Raise e, w') -> bind m k w = (Raise e, w').
Proof. intros H. unfold bind. rewrite H. reflexivity. Qed.

Lemma bind_out_of_fuel {A B} (m : M A) (k : A -> M B) (w w' : world) :
  m w = (OutOfFuel, w') -> bind m k w = (OutOfFuel, w').
Proof. intros H. unfold bind. rewrite H. reflexivity. Qed.

Lemma try_finally_done {A} (body : M A) (cleanup : M unit)
      (w w' w'' : world) (r : outcome A) :
  body w = (r, w') -> r <> OutOfFuel -> cleanup w' = (Ok tt, w'') ->
  try_finally body cleanup w = (r, w'').
Proof.
  intros Hb Hr Hc. unfold try_finally. rewrite Hb.
  destruct r; [rewrite Hc; reflexivity | rewrite Hc; reflexivity | congruence].
Qed.

Lemma try_finally_out_of_fuel {A} (body : M A) (cleanup : M unit) (w w' : world) :
  body w = (OutOfFuel, w') -> try_finally body cleanup w = (OutOfFuel, w').
Proof. intros Hb. unfold try_finally. rewrite Hb. reflexivity. Qed.

Create HintDb quiet.
#[local] Hint Resolve returns_ret quiet_raise quiet_lift quiet_await_plain
  quiet_read_file returns_quiet : quiet.

Section Summaries.

Context (env : Env).

Lemma quiet_pd_read_csv path nrows : quiet (pd_read_csv env path nrows).
Proof. apply quiet_bind; auto with quiet. Qed.

Lemma quiet_pd_read_excel path nrows : quiet (pd_read_excel env path nrows).
Proof. apply quiet_bind; auto with quiet. Qed.

Lemma quiet_join_columns df : quiet (join_columns df).
Proof. apply quiet_bind; auto with quiet. Qed.

Lemma quiet_sheet_reports sheets : quiet (sheet_reports sheets).
Proof.
  induction sheets as [| [name df] rest IH]; cbn [sheet_reports].
  - auto with quiet.
  - apply quiet_bind.
    + apply quiet_bind; [apply quiet_join_columns | auto with quiet].
    + intros r. apply quiet_bind; [exact IH | auto with quiet].
Qed.

(** The classifier never raises and touches nothing. *)
Lemma identify_file_type_returns path : returns (identify_file_type env path).
Proof.
  unfold identify_file_type.
  destruct (extension_map !! _) as [t |]; [apply returns_ret |].
  apply returns_bind.
  - apply returns_try_except.
    + apply quiet_bind; [apply quiet_pd_read_csv | auto with quiet].
    + intros e. destruct (isinstance (exn_cls e) EmptyDataError).
      * eexists. split; [reflexivity | apply returns_ret].
      * eexists. split; [reflexivity |].
        apply returns_try_except.
        -- apply quiet_bind; [apply quiet_pd_read_excel | auto with quiet].
        -- intros e'. eexists. split; [reflexivity | apply returns_ret].
  - intros [t |]; apply returns_ret.
Qed.

Lemma handle_csv_file_returns path n : returns (handle_csv_file env path n).
Proof.
  apply returns_try_except.
  - apply quiet_bind; [apply quiet_pd_read_csv |].
    intros df. apply quiet_bind; [apply quiet_join_columns | auto with quiet].
  - intros e.
    destruct (isinstance (exn_cls e) FileNotFoundError) eqn:E1;
      [| destruct (isinstance (exn_cls e) EmptyDataError) eqn:E2;
         [| destruct (isinstance (exn_cls e) ParserError) eqn:E3]];
      eexists; (split; [reflexivity | apply returns_ret]).
Qed.

Lemma handle_excel_file_returns path : returns (handle_excel_file env path).
Proof.
  apply returns_try_except.
  - apply quiet_bind; [apply quiet_pd_read_excel |].
    intros sheets. apply quiet_bind; [apply quiet_sheet_reports | auto with quiet].
  - intros e.
    destruct (isinstance (exn_cls e) FileNotFoundError) eqn:E1;
      [| destruct (isinstance (exn_cls e) EmptyDataError) eqn:E2];
      eexists; (split; [reflexivity | apply returns_ret]).
Qed.

Lemma handleMarkdownFile_returns path : returns (handleMarkdownFile env path).
Proof.
  apply returns_try_except.
  - apply quiet_bind; [apply quiet_read_file |].
    intros bytes. apply quiet_bind; [apply quiet_lift | auto with quiet].
  - intros e.
    destruct (isinstance (exn_cls e) FileNotFoundError) eqn:E1;
      [| destruct (isinstance (exn_cls e) OSError) eqn:E2];
      eexists; (split; [reflexivity | apply returns_ret]).
Qed.

(** The loop over the entries writes nothing: the first entry that is
    not a directory stops it at [await f.read()]. *)
Lemma quiet_zip_entries collect members info :
  quiet (zip_entries env collect members info).
Proof.
  induction members as [| member rest IH]; cbn [zip_entries].
  - auto with quiet.
  - destruct (endswith (zm_name member) "/"); [exact IH |].
    apply quiet_bind; [apply quiet_lift |].
    intros read w. eexists. split; [reflexivity | discriminate].
Qed.

(** The archive walker never raises, whatever [collect] is. *)
Lemma handle_zip_file_returns collect path :
  returns (handle_zip_file env collect path).
Proof.
  apply returns_try_except.
  - apply quiet_bind; [apply quiet_read_file |].
    intros bytes. apply quiet_bind; [apply quiet_lift |].
    intros members. apply quiet_bind; [apply quiet_zip_entries | auto with quiet].
  - intros e. eexists. split; [reflexivity | apply returns_ret].
Qed.

Lemma collect_file_data_returns depth path :
  returns (collect_file_data env (S depth) path).
Proof.
  cbn [collect_file_data]. apply returns_bind.
  - apply identify_file_type_returns.
  - intros file_type.
    destruct (processing_functions !! file_type) as [[] |]; cbn [await].
    + apply handle_zip_file_returns.
    + apply handle_csv_file_returns.
    + apply handle_excel_file_returns.
    + apply handleMarkdownFile_returns.
    + apply returns_ret.
Qed.

End Summaries.

(** ** Upload validation (lines 283-285) *)

(** [C2] Every request with an attached file stops at the validation
    step: [answer_question] awaits the [bool] that the plain function
    [is_file_allowed] returns, which raises [TypeError].  The world is
    untouched: nothing is read from the upload, no directory or file is
    created, no verdict, size check, classification or summary is
    reached, and no response is produced. *)
Theorem attached_file_raises_type_error
  (env : Env) (depth : nat) (question : string) (file : UploadFile) (w : world) :
  answer_question env depth question (Some file) w = (Raise await_bool_error, w).
Proof.
  unfold answer_question.
  (* the first step of the upload branch is the await of a bool *)
  apply bind_raise. apply bind_raise.
  unfold await, raise, await_bool_error. reflexivity.
Qed.

Example is_file_allowed_csv_upper : is_file_allowed "DATA.CSV" = true.
Proof. vm_compute. reflexivity. Qed.

Example is_file_allowed_exe : is_file_allowed "tool.exe" = false.
Proof. vm_compute. reflexivity. Qed.

(** [C1] The validation does not do what the claim says.  A request with
    the upload [tool.exe] ends in [TypeError], not in the 400 response
    "Invalid file type"; a request with [data.csv] ends in the same
    [TypeError] instead of being accepted; and [is_file_allowed] itself
    tests the end of the name, not its extension: [notes.cmd] (extension
    [cmd]) and [xcsv] (no extension) pass. *)
Theorem validation_fails_on_every_upload
  (env : Env) (depth : nat) (question : string) (bytes : list byte) (w : world) :
  fst (answer_question env depth question (Some (mkUpload "tool.exe" bytes)) w)
    = Raise await_bool_error
  /\ fst (answer_question env depth question (Some (mkUpload "tool.exe" bytes)) w)
    <> Raise (mkExn (HTTPException 400) "Invalid file type")
  /\ fst (answer_question env depth question (Some (mkUpload "data.csv" bytes)) w)
    = Raise await_bool_error
  /\ snd (OsPath.splitext "notes.cmd") = ".cmd"
  /\ is_file_allowed "notes.cmd" = true
  /\ snd (OsPath.splitext "xcsv") = EmptyString
  /\ is_file_allowed "xcsv" = true.
Proof.
  repeat split; try reflexivity; try (vm_compute; reflexivity).
  cbn. discriminate.
Qed.

(** ** The summarizers never raise *)



Lemma handleMarkdownFile_not_found (env : Env) (path : string) (w : world) :
  files w !! path = None ->
  handleMarkdownFile env path w
  = (Ok "Error: The specified Markdown file was not found.", w).
Proof.
  intros H. unfold handleMarkdownFile, try_except, bind, read_file.
  rewrite H. reflexivity.
Qed.


(** ** Remote delegation (generate_response) *)

Lemma quiet_raise_for_status (response : http_response) :
  quiet (raise_for_status response).
Proof.
  unfold raise_for_status.
  destruct ((400 <=? status_code response) && (status_code response <? 500))%Z;
    [apply quiet_raise |].
  destruct ((500 <=? status_code response) && (status_code response <? 600))%Z;
    [apply quiet_raise | apply returns_quiet, returns_ret].
Qed.

Lemma quiet_response_json (response : http_response) : quiet (response_json response).
Proof.
  unfold response_json. destruct (resp_json response); auto with quiet.
Qed.

(** What [generate_response] does after the request has been logged. *)
Lemma generate_response_world (env : Env) (question : string)
      (file_info : option string) (w : world) :
  exists r,
    generate_response env question file_info w
    = (r, logged w (EvHttpPost (message_prompt question file_info)))
    /\ r <> OutOfFuel.
Proof.
  unfold generate_response, try_except.
  unfold bind at 1. unfold log at 1. fold (logged w (EvHttpPost (message_prompt question file_info))).
  set (w1 := logged w _).
  match goal with |- context [?rest w1] =>
    assert (Hq : quiet rest)
  end.
  { intros w0.
    apply (quiet_bind (lift (http_post env system_prompt (message_prompt question file_info)))).
    - apply quiet_lift.
    - intros response. apply quiet_bind; [apply quiet_raise_for_status |].
      intros _. apply quiet_bind; [apply quiet_response_json |].
      intros body. apply quiet_bind; [apply quiet_lift |].
      intros candidates. destruct (Py.truthy candidates); [| auto with quiet].
      repeat (apply quiet_bind; [apply quiet_lift | intros ?]).
      apply quiet_lift. }
  destruct (Hq w1) as [r [E Hr]]. cbv beta in E. rewrite E.
  destruct r as [a | e |]; [eauto | | congruence].
  destruct (isinstance (exn_cls e) RequestException).
  - eexists. split; [reflexivity | discriminate].
  - eexists. split; [reflexivity | discriminate].
Qed.

(** A request without attachment is what [generate_response] makes of it. *)
Lemma answer_question_no_file (env : Env) (depth : nat) (question : string) (w : world) :
  answer_question env depth question None w
  = (outcome_map mkJSONResponse (fst (generate_response env question None w)),
     snd (generate_response env question None w)).
Proof.
  unfold answer_question, bind, ret, await.
  destruct (generate_response env question None w) as [[a | e |] w']; reflexivity.
Qed.

(** [C3], as stated, fails: the question "code -s" without a file is sent
    to the model and no command runs. *)
Lemma code_s_without_file_not_local :
  contains "code -s" "code -s" = true
  /\ ~ runs_code_s_locally env0 1 "code -s" empty_world.
Proof.
  split; [reflexivity |].
  intros [Hrun _]. vm_compute in Hrun.
  destruct Hrun as [H | []]. discriminate H.
Qed.

(** [C3], amended: for a request whose question contains "code -s" and
    that has no attached file, the local command path is not taken.  The
    handler does what [generate_response] does: the one event it adds is
    the request to the model, no command is executed, and its outcome is
    that of [generate_response], wrapped in the response. *)
Theorem code_s_without_file_is_delegated
  (env : Env) (depth : nat) (question : string) (w : world) :
  contains question "code -s" = true ->
  let run := answer_question env depth question None w in
  snd run = logged w (EvHttpPost (message_prompt question None))
  /\ fst run = outcome_map mkJSONResponse (fst (generate_response env question None w))
  /\ (forall command cwd,
        In (EvSubprocess command cwd) (trace (snd run)) ->
        In (EvSubprocess command cwd) (trace w)).
Proof.
  intros _. cbv zeta. rewrite answer_question_no_file. cbn [fst snd].
  destruct (generate_response_world env question None w) as [r [E _]].
  rewrite E. cbn [fst snd]. repeat split.
  intros command cwd H. cbn [logged trace] in H.
  apply in_app_or in H. destruct H as [H | [H | []]]; [exact H | discriminate H].
Qed.

Lemma code_s_without_file_is_delegated_witness :
  let run := answer_question env0 1 "code -s" None empty_world in
  snd run = logged empty_world (EvHttpPost (message_prompt "code -s" None))
  /\ fst run = outcome_map mkJSONResponse (fst (generate_response env0 "code -s" None empty_world))
  /\ (forall command cwd,
        In (EvSubprocess command cwd) (trace (snd run)) ->
        In (EvSubprocess command cwd) (trace empty_world)).
Proof.
  apply (code_s_without_file_is_delegated env0 1 "code -s" empty_world).
  reflexivity.
Defined.

(** The failures [generate_response] does turn into an answer. *)
Lemma generate_response_request_failed (env : Env) (question : string)
      (file_info : option string) (w : world) (e : exn) :
  http_post env system_prompt (message_prompt question file_info) = inl e ->
  isinstance (exn_cls e) RequestException = true ->
  fst (generate_response env question file_info w)
  = Ok ("Error calling LLM API: " +:+ str_exn e).
Proof.
  intros Hpost Hcls. unfold generate_response, try_except, bind, log, lift.
  rewrite Hpost. cbn -[isinstance]. rewrite Hcls. reflexivity.
Qed.

Lemma generate_response_http_error (env : Env) (question : string)
      (file_info : option string) (w : world) (response : http_response) :
  http_post env system_prompt (message_prompt question file_info) = inr response ->
  (400 <= status_code response < 600)%Z ->
  exists msg,
    fst (generate_response env question file_info w)
    = Ok ("Error calling LLM API: " +:+ msg).
Proof.
  intros Hpost Hcode. unfold generate_response, try_except, bind, log, lift.
  rewrite Hpost. cbn. unfold raise_for_status.
  destruct ((400 <=? status_code response) && (status_code response <? 500))%Z eqn:E4.
  - cbn. eexists. reflexivity.
  - destruct ((500 <=? status_code response) && (status_code response <? 600))%Z eqn:E5.
    + cbn. eexists. reflexivity.
    + exfalso. apply andb_false_iff in E4, E5.
      destruct E4 as [E4 | E4], E5 as [E5 | E5]; lia.
Qed.

Lemma generate_response_no_candidates (env : Env) (question : string)
      (file_info : option string) (w : world) (response : http_response)
      (fields : list (string * json)) :
  http_post env system_prompt (message_prompt question file_info) = inr response ->
  (status_code response < 400)%Z ->
  resp_json response = Some (JObj fields) ->
  Py.dict_lookup "candidates" fields = None
  \/ Py.dict_lookup "candidates" fields = Some (JArr []) ->
  fst (generate_response env question file_info w)
  = Ok "Error: Could not extract answer from model response".
Proof.
  intros Hpost Hcode Hjson Hcand.
  unfold generate_response, try_except, bind, log, lift.
  rewrite Hpost. cbn. unfold raise_for_status.
  replace ((400 <=? status_code response) && (status_code response <? 500))%Z
    with false by (symmetry; apply andb_false_iff; left; lia).
  replace ((500 <=? status_code response) && (status_code response <? 600))%Z
    with false by (symmetry; apply andb_false_iff; left; lia).
  cbn. unfold response_json. rewrite Hjson. cbn.
  destruct Hcand as [-> | ->]; reflexivity.
Qed.

(** [C4] fails on a malformed response whose candidate list is not empty:
    with [withheld_response], [generate_response] raises [KeyError]
    ('content'), which no clause catches, and the request ends on that
    exception without a response. *)
Theorem candidate_without_content_raises
  (depth : nat) (question : string) (file_info : option string) (w : world) :
  let env := stub_env (inr []) (inr withheld_response) in
  fst (generate_response env question file_info w) = Raise (mkExn KeyError "'content'")
  /\ fst (answer_question env depth question None w) = Raise (mkExn KeyError "'content'").
Proof.
  cbv zeta. split.
  - reflexivity.
  - rewrite answer_question_no_file. reflexivity.
Qed.

(** ** The archive walker (handle_zip_file) *)

(** The loop ends at the first entry that is not a directory: reading it
    raises, or awaiting what was read does.  It appends nothing to [info],
    writes no temporary file and never calls [collect]. *)
Lemma zip_entries_outcome (env : Env) (collect : string -> M string)
      (members : list zip_member) (info : list string) (w : world) :
  zip_entries env collect members info w
  = (match find is_file_entry members with
     | None => Ok info
     | Some member =>
         match zm_read member with
         | inl e => Raise e
         | inr _ => Raise await_bytes_error
         end
     end, w).
Proof.
  induction members as [| member rest IH]; cbn [zip_entries find].
  - reflexivity.
  - unfold is_file_entry at 1.
    destruct (endswith (zm_name member) "/"); cbn [negb].
    + exact IH.
    + unfold bind, lift. destruct (zm_read member); reflexivity.
Qed.

(** The summary of a readable archive: empty when every entry is a
    directory, and otherwise one error string. *)
Lemma handle_zip_file_summary (env : Env) (collect : string -> M string)
      (zip_path : string) (bytes : list byte) (members : list zip_member) (w : world) :
  files w !! zip_path = Some bytes ->
  zip_namelist env bytes = inr members ->
  handle_zip_file env collect zip_path w
  = (Ok (match find is_file_entry members with
         | None => EmptyString
         | Some member =>
             "Error processing ZIP file: "
             +:+ match zm_read member with
                 | inl e => str_exn e
                 | inr _ => str_exn await_bytes_error
                 end
         end), w).
Proof.
  intros Hfile Hzip.
  unfold handle_zip_file, try_except, bind at 1, read_file. rewrite Hfile.
  unfold bind at 1, lift at 1. rewrite Hzip. unfold ret at 1.
  unfold bind. rewrite zip_entries_outcome.
  destruct (find is_file_entry members) as [member |]; [| reflexivity].
  destruct (zm_read member); reflexivity.
Qed.



Example one_file_archive_summary :
  fst (collect_file_data (stub_env (inr one_file_archive) (inr (ok_response "42"))) 3
                         "/up/a.zip" archive_world)
  = Ok "Error processing ZIP file: object bytes can't be used in 'await' expression".
Proof. vm_compute. reflexivity. Qed.

(** ** The classifier (identify_file_type) *)

Lemma extension_map_values (extension file_type : string) :
  extension_map !! extension = Some file_type ->
  In file_type ["zip"; "csv"; "excel"; "md"].
Proof.
  intros H. apply elem_of_map_to_list in H. apply list_elem_of_In in H.
  assert (E : map_to_list extension_map
              = [(".csv", "csv"); (".md", "md"); (".zip", "zip");
                 (".xlsx", "excel"); (".xls", "excel")]) by (vm_compute; reflexivity).
  rewrite E in H. cbn [In] in H. cbn [In].
  repeat (destruct H as [H | H]; [injection H as _ <-; tauto |]).
  destruct H.
Qed.

(** [C6], as stated, fails: the empty file [/up/data] has no extension,
    the CSV probe reports empty data, and the classifier answers
    [unknown]. *)
Lemma empty_file_is_not_csv : ~ empty_file_is_csv env0 "/up/data" empty_file_world.
Proof.
  intros H.
  assert (E : fst (identify_file_type env0 "/up/data" empty_file_world) = Ok "csv").
  { apply H.
    - reflexivity.
    - eexists. reflexivity. }
  vm_compute in E. discriminate E.
Qed.

(** [C6], amended.  For a file whose extension is absent or unrecognized:
    when the CSV probe reports empty data the classifier returns
    [unknown], without trying the spreadsheet probe; it returns [csv]
    exactly when the CSV probe succeeds; and, whatever the extension, it
    returns [unknown] only if the CSV probe raised and either reported
    empty data or the spreadsheet probe raised too. *)
Theorem empty_data_probe_gives_unknown
  (env : Env) (file_path : string) (w : world) :
  (forall e,
      extension_map !! lower (snd (OsPath.splitext file_path)) = None ->
      fst (pd_read_csv env file_path (Some 1%nat) w) = Raise e ->
      isinstance (exn_cls e) EmptyDataError = true ->
      identify_file_type env file_path w = (Ok "unknown", w))
  /\ (extension_map !! lower (snd (OsPath.splitext file_path)) = None ->
      (fst (identify_file_type env file_path w) = Ok "csv"
       <-> exists df, fst (pd_read_csv env file_path (Some 1%nat) w) = Ok df))
  /\ (fst (identify_file_type env file_path w) = Ok "unknown" ->
      exists e,
        fst (pd_read_csv env file_path (Some 1%nat) w) = Raise e
        /\ (isinstance (exn_cls e) EmptyDataError = true
            \/ exists e', fst (pd_read_excel env file_path (Some 1%nat) w) = Raise e')).
Proof.
  destruct (quiet_pd_read_csv env file_path (Some 1%nat) w) as [rc [Ec Hc]].
  destruct (quiet_pd_read_excel env file_path (Some 1%nat) w) as [rx [Ex Hx]].
  unfold identify_file_type.
  destruct (extension_map !! lower (snd (OsPath.splitext file_path)))
    as [file_type |] eqn:Hext.
  - (* a known extension decides *)
    split; [intros e H; discriminate H |].
    split; [intros H; discriminate H |].
    cbn. intros H. injection H as ->.
    apply extension_map_values in Hext. cbn [In] in Hext.
    repeat (destruct Hext as [Hext | Hext]; [discriminate Hext |]).
    destruct Hext.
  - unfold bind, try_except. rewrite Ec. cbn [fst].
    destruct rc as [df | e |]; [ | | congruence].
    + (* the CSV probe succeeds *)
      cbn -[isinstance]. split; [intros e _ H; discriminate H |].
      split; [intros _; split; [intros _; exists df; reflexivity | reflexivity] |].
      intros H. discriminate H.
    + destruct (isinstance (exn_cls e) EmptyDataError) eqn:Hempty.
      * (* empty data: no further probe *)
        cbn -[isinstance]. split; [intros e0 _ _ _; reflexivity |].
        split; [intros _; split; [intros H; discriminate H | intros [df H]; discriminate H] |].
        intros _. exists e. split; [reflexivity | left; exact Hempty].
      * rewrite Ex.
        destruct rx as [sheets | e' |]; [ | | congruence]; cbn -[isinstance].
        -- split; [intros e0 _ H H0; injection H as <-; congruence |].
           split; [intros _; split; [intros H; discriminate H | intros [df H]; discriminate H] |].
           intros H. discriminate H.
        -- split; [intros e0 _ H H0; injection H as <-; congruence |].
           split; [intros _; split; [intros H; discriminate H | intros [df H]; discriminate H] |].
           intros _. exists e. split; [reflexivity |]. right. exists e'. reflexivity.
Qed.

Lemma empty_data_probe_gives_unknown_witness :
  identify_file_type env0 "/up/data" empty_file_world = (Ok "unknown", empty_file_world).
Proof.
  apply (proj1 (empty_data_probe_gives_unknown env0 "/up/data" empty_file_world)
               (mkExn EmptyDataError "No columns to parse from file")).
  - reflexivity.
  - reflexivity.
  - reflexivity.
Defined.

(** ** The streaming digest (compute_sha256) *)

(** A read of 8192 bytes is empty only at the end of the file. *)
Lemma firstn_chunk_nil (rest : list byte) :
  firstn 8192 rest = [] -> rest = [].
Proof.
  destruct rest as [| b rest]; [reflexivity |].
  intros H. apply (f_equal (@length byte)) in H.
  rewrite length_firstn in H. cbn [length] in H.
  assert (0 < 8192)%nat by (apply Nat.ltb_lt; vm_compute; reflexivity).
  lia.
Qed.

Lemma skipn_chunk_shorter (rest : list byte) :
  rest <> [] -> (length (skipn 8192 rest) < length rest)%nat.
Proof.
  intros H. rewrite length_skipn.
  assert (0 < 8192)%nat by (apply Nat.ltb_lt; vm_compute; reflexivity).
  destruct rest; [congruence | cbn [length]; lia].
Qed.

(** The loop feeds the whole file to the hash object, chunk after chunk,
    whenever it is given more iterations than the file has bytes. *)
Lemma read_chunks_feeds_all (fuel : nat) :
  forall (rest : list byte) (h : Sha256.hash_obj) (w : world),
    (length rest < fuel)%nat ->
    read_chunks fuel rest h w = (Ok (Sha256.mkHash (Sha256.fed h ++ rest)), w).
Proof.
  induction fuel as [| fuel IH]; intros rest h w Hlen; [lia |].
  cbn [read_chunks]. unfold bind, await, ret.
  destruct (firstn 8192 rest) as [| b chunk] eqn:Hchunk.
  - apply firstn_chunk_nil in Hchunk. subst rest.
    rewrite app_nil_r. destruct h. reflexivity.
  - assert (Hne : rest <> []) by (intros ->; rewrite firstn_nil in Hchunk; discriminate).
    pose proof (skipn_chunk_shorter rest Hne) as Hshort.
    rewrite IH by lia.
    unfold Sha256.update. cbn [Sha256.fed].
    rewrite <- Hchunk, <- app_assoc, firstn_skipn. reflexivity.
Qed.

(** [compute_sha256] of a file that exists: the lowercase hexadecimal
    SHA-256 digest of its whole content, whatever its size. *)
Lemma compute_sha256_of_file (file_path : string) (bytes : list byte) (w : world) :
  files w !! file_path = Some bytes ->
  compute_sha256 file_path w = (Ok (Sha256.hex (Sha256.digest bytes)), w).
Proof.
  intros Hfile. unfold compute_sha256, try_except, bind, read_file.
  rewrite Hfile, read_chunks_feeds_all by lia. reflexivity.
Qed.

Lemma compute_sha256_returns (file_path : string) : returns (compute_sha256 file_path).
Proof.
  intros w. unfold compute_sha256, try_except, bind, read_file.
  destruct (files w !! file_path) as [bytes |].
  - rewrite read_chunks_feeds_all by lia. eexists. reflexivity.
  - eexists. reflexivity.
Qed.

(** ** Local commands (run_command, lines 306-312) *)

(** A command always yields a string: its output, or the text of its
    failure; the one event is the subprocess. *)
Lemma run_command_returns (env : Env) (command : string) (cwd : option string)
      (w : world) :
  exists out,
    run_command env command cwd w = (Ok out, logged w (EvSubprocess command cwd)).
Proof.
  unfold run_command, try_except, bind at 1, log at 1.
  fold (logged w (EvSubprocess command cwd)).
  unfold bind at 1, get_world at 1. unfold bind at 1, lift at 1.
  destruct (shell env command cwd (files (logged w (EvSubprocess command cwd))))
    as [e | [[returncode stdout] stderr]].
  - unfold raise. destruct (isinstance (exn_cls e) AsyncTimeoutError); eexists; reflexivity.
  - unfold ret at 1.
    destruct (negb (returncode =? 0)%Z); unfold bind, lift.
    + destruct (bytes_decode env stderr) as [e | output]; [| eexists; reflexivity].
      unfold raise.
      destruct (isinstance (exn_cls e) AsyncTimeoutError); eexists; reflexivity.
    + destruct (bytes_decode env stdout) as [e | output]; [| eexists; reflexivity].
      unfold raise.
      destruct (isinstance (exn_cls e) AsyncTimeoutError); eexists; reflexivity.
Qed.

Lemma prettier_rule_implies_sha256sum_rule (question file_type : string) :
  prettier_rule question file_type = true -> sha256sum_rule question file_type = true.
Proof.
  unfold prettier_rule, sha256sum_rule. intros H.
  apply andb_true_iff in H. destruct H as [H Hmd].
  apply andb_true_iff in H. destruct H as [_ Hsha].
  rewrite Hsha, Hmd. reflexivity.
Qed.

(** Under the first rule the answer is the streaming digest. *)
Lemma local_answer_sha256sum (env : Env) (question file_type file_path temp_dir : string)
      (w : world) :
  sha256sum_rule question file_type = true ->
  local_answer env question file_type file_path temp_dir w
  = (outcome_map Some (fst (compute_sha256 file_path w)), w).
Proof.
  unfold sha256sum_rule. intros H. unfold local_answer. rewrite H.
  unfold bind, await, ret.
  destruct (compute_sha256_returns file_path w) as [a ->]. reflexivity.
Qed.

(** What the dispatch can do: answer with the digest, run [code -s], or
    leave the answer unset.  The formatter is in none of the cases. *)
Lemma local_answer_cases (env : Env) (question file_type file_path temp_dir : string)
      (w : world) :
  local_answer env question file_type file_path temp_dir w
    = (outcome_map Some (fst (compute_sha256 file_path w)), w)
  \/ (exists out,
        local_answer env question file_type file_path temp_dir w
        = (Ok (Some out), logged w (EvSubprocess "code -s" None)))
  \/ local_answer env question file_type file_path temp_dir w = (Ok None, w).
Proof.
  destruct (sha256sum_rule question file_type) eqn:Hsha.
  - left. apply local_answer_sha256sum. exact Hsha.
  - right. unfold local_answer. fold (sha256sum_rule question file_type). rewrite Hsha.
    fold (prettier_rule question file_type).
    destruct (prettier_rule question file_type) eqn:Hpre.
    + apply prettier_rule_implies_sha256sum_rule in Hpre. congruence.
    + destruct (contains (lower question) "code -s").
      * left. unfold bind, await, ret.
        destruct (run_command_returns env "code -s" None w) as [out ->].
        exists out. reflexivity.
      * right. reflexivity.
Qed.

(** ** The upload branch of the handler (lines 287-319) *)

Lemma cleanup_upload_run (file_path temp_dir : string) (bytes : list byte) (w : world) :
  files w !! file_path = Some bytes ->
  existsb (String.eqb temp_dir) (dirs w) = true ->
  cleanup_upload file_path temp_dir w = (Ok tt, cleaned file_path temp_dir w).
Proof.
  intros Hfile Hdir.
  unfold cleanup_upload, bind, path_exists, os_remove, os_rmdir, ret.
  rewrite Hfile. cbn. rewrite Hfile. cbn.
  destruct (delete file_path (files w) !! temp_dir); cbn;
    repeat (rewrite Hdir; cbn); reflexivity.
Qed.

(** The upload branch, up to the size check: the file is saved first; an
    upload above the ceiling ends in the 400 error, any other goes on to
    classification, summary and dispatch; the [finally] block runs in
    both cases. *)
Lemma process_upload_run (env : Env) (depth : nat) (question : string)
      (file : UploadFile) (w : world) :
  process_upload env depth question file w
  = if (Z.of_nat (length (content file)) >? MAX_FILE_SIZE)%Z
    then (Raise (mkExn (HTTPException 400) "File too large"),
          cleaned (upload_path env file) (mkdtemp env) (saved_world env file w))
    else try_finally
           (classify_and_answer env depth question (upload_path env file) (mkdtemp env))
           (cleanup_upload (upload_path env file) (mkdtemp env))
           (saved_world env file w).
Proof.
  unfold process_upload. unfold bind at 1. unfold tempfile_mkdtemp at 1.
  fold (upload_path env file).
  unfold try_finally.
  unfold bind at 1, await at 1, upload_read at 1, bind at 1, log at 1, ret at 1.
  unfold bind at 1, await at 1, write_file at 1.
  cbn [files dirs trace].
  unfold bind at 1, getsize at 1. cbn [files dirs trace].
  rewrite lookup_insert_eq.
  fold (saved_world env file w).
  destruct (Z.of_nat (length (content file)) >? MAX_FILE_SIZE)%Z.
  - unfold raise.
    rewrite (cleanup_upload_run _ _ (content file)).
    + reflexivity.
    + apply lookup_insert_eq.
    + cbn [dirs saved_world existsb]. rewrite String.eqb_refl. reflexivity.
  - reflexivity.
Qed.

(** After the size check: a classification, a summary and the dispatch,
    none of which raises. *)
Lemma classify_and_answer_run (env : Env) (depth : nat) (question : string)
      (file_path temp_dir : string) (w : world) :
  exists file_type file_info,
    identify_file_type env file_path w = (Ok file_type, w)
    /\ classify_and_answer env (S depth) question file_path temp_dir w
       = (outcome_map (fun a => (a, Some file_info))
                      (fst (local_answer env question file_type file_path temp_dir w)),
          snd (local_answer env question file_type file_path temp_dir w)).
Proof.
  destruct (identify_file_type_returns env file_path w) as [file_type Hid].
  destruct (collect_file_data_returns env depth file_path w) as [file_info Hcol].
  exists file_type, file_info. split; [exact Hid |].
  unfold classify_and_answer.
  rewrite (bind_ok _ _ w w file_type) by exact Hid.
  rewrite (bind_ok _ _ w w file_info) by exact Hcol.
  unfold bind, ret.
  destruct (local_answer env question file_type file_path temp_dir w) as [[a | e |] w'];
    reflexivity.
Qed.

Lemma formatter_event_not_plain (e : event) : formatter_event e -> plain_event e = false.
Proof. intros [file_path [cwd ->]]. reflexivity. Qed.

Lemma adds_no_formatter_event (w w' : world) (e : event) :
  adds_plain_events w w' -> formatter_event e -> In e (trace w') -> In e (trace w).
Proof.
  intros [events [Htrace Hplain]] Hfmt Hin. rewrite Htrace in Hin.
  apply in_app_or in Hin. destruct Hin as [Hin | Hin]; [exact Hin |].
  apply formatter_event_not_plain in Hfmt.
  rewrite forallb_forall in Hplain. apply Hplain in Hin. congruence.
Qed.

(** The dispatch keeps files and directories and adds plain events. *)
Lemma local_answer_world (env : Env) (question file_type file_path temp_dir : string)
      (w : world) :
  exists (a : option string) (events : list event),
    local_answer env question file_type file_path temp_dir w
    = (Ok a, mkWorld (files w) (dirs w) (trace w ++ events))
    /\ forallb plain_event events = true.
Proof.
  destruct (local_answer_cases env question file_type file_path temp_dir w)
    as [H | [[out H] | H]]; rewrite H.
  - destruct (compute_sha256_returns file_path w) as [a ->].
    exists (Some a), []. rewrite app_nil_r. destruct w. split; reflexivity.
  - exists (Some out), [EvSubprocess "code -s" None]. split; reflexivity.
  - exists None, []. rewrite app_nil_r. destruct w. split; reflexivity.
Qed.

(** The whole upload branch, with room for one level of [collect_file_data]. *)
Lemma process_upload_accepted (env : Env) (depth : nat) (question : string)
      (file : UploadFile) (w : world) :
  (Z.of_nat (length (content file)) <= MAX_FILE_SIZE)%Z ->
  exists file_type file_info answer events,
    identify_file_type env (upload_path env file) (saved_world env file w)
    = (Ok file_type, saved_world env file w)
    /\ fst (local_answer env question file_type (upload_path env file) (mkdtemp env)
                         (saved_world env file w)) = Ok answer
    /\ forallb plain_event events = true
    /\ process_upload env (S depth) question file w
       = (Ok (answer, Some file_info),
          cleaned (upload_path env file) (mkdtemp env)
                  (mkWorld (files (saved_world env file w)) (dirs (saved_world env file w))
                           (trace (saved_world env file w) ++ events))).
Proof.
  intros Hsize. rewrite process_upload_run.
  replace (Z.of_nat (length (content file)) >? MAX_FILE_SIZE)%Z with false
    by (symmetry; rewrite Z.gtb_ltb; apply Z.ltb_ge; exact Hsize).
  set (w3 := saved_world env file w).
  destruct (classify_and_answer_run env depth question (upload_path env file)
                                    (mkdtemp env) w3)
    as [file_type [file_info [Hid Hrun]]].
  destruct (local_answer_world env question file_type (upload_path env file)
                               (mkdtemp env) w3)
    as [answer [events [Hlocal Hplain]]].
  exists file_type, file_info, answer, events.
  split; [exact Hid |]. rewrite Hlocal in *. cbn [fst snd outcome_map] in Hrun.
  split; [reflexivity |]. split; [exact Hplain |].
  apply (try_finally_done _ _ _ _ _ _ Hrun); [discriminate |].
  apply (cleanup_upload_run _ _ (content file)).
  - cbn [files]. apply lookup_insert_eq.
  - cbn [dirs w3 saved_world existsb]. rewrite String.eqb_refl. reflexivity.
Qed.

(** Whatever [depth], the upload branch adds plain events only. *)
Lemma process_upload_adds_plain_events (env : Env) (depth : nat) (question : string)
      (file : UploadFile) (w : world) :
  adds_plain_events w (snd (process_upload env depth question file w)).
Proof.
  destruct (Z_le_gt_dec (Z.of_nat (length (content file))) MAX_FILE_SIZE) as [Hle | Hgt].
  - destruct depth as [| depth].
    + (* no room for collect_file_data: the model stops after the save *)
      rewrite process_upload_run.
      replace (Z.of_nat (length (content file)) >? MAX_FILE_SIZE)%Z with false
        by (symmetry; rewrite Z.gtb_ltb; apply Z.ltb_ge; exact Hle).
      set (w3 := saved_world env file w).
      destruct (identify_file_type_returns env (upload_path env file) w3)
        as [file_type Hid].
      rewrite (try_finally_out_of_fuel _ _ w3 w3).
      * exists [EvMkdtemp (mkdtemp env); EvUploadRead (filename file);
                EvWrite (upload_path env file) (length (content file))].
        split; [| reflexivity].
        cbn [snd trace w3 saved_world]. rewrite <- !app_assoc. reflexivity.
      * unfold classify_and_answer.
        rewrite (bind_ok _ _ w3 w3 file_type) by exact Hid.
        reflexivity.
    + destruct (process_upload_accepted env depth question file w Hle)
        as [file_type [file_info [answer [events [_ [_ [Hplain ->]]]]]]].
      exists ([EvMkdtemp (mkdtemp env); EvUploadRead (filename file);
               EvWrite (upload_path env file) (length (content file))]
                ++ events
                ++ [EvRemove (upload_path env file); EvRmdir (mkdtemp env)]).
      split.
      * cbn [snd trace cleaned saved_world]. rewrite <- !app_assoc. reflexivity.
      * rewrite !forallb_app, Hplain. reflexivity.
  - rewrite process_upload_run.
    replace (Z.of_nat (length (content file)) >? MAX_FILE_SIZE)%Z with true
      by (symmetry; apply Z.gtb_lt; lia).
    exists [EvMkdtemp (mkdtemp env); EvUploadRead (filename file);
            EvWrite (upload_path env file) (length (content file));
            EvRemove (upload_path env file); EvRmdir (mkdtemp env)].
    split; [| reflexivity].
    cbn [snd trace cleaned saved_world]. rewrite <- !app_assoc. reflexivity.
Qed.

(** The endpoint adds plain events only. *)
Lemma answer_question_adds_plain_events (env : Env) (depth : nat) (question : string)
      (file : option UploadFile) (w : world) :
  adds_plain_events w (snd (answer_question env depth question file w)).
Proof.
  destruct file as [file |].
  - exists []. rewrite app_nil_r. split; reflexivity.
  - rewrite answer_question_no_file. cbn [snd].
    destruct (generate_response_world env question None w) as [r [-> _]].
    exists [EvHttpPost (message_prompt question None)]. split; reflexivity.
Qed.

(** [X3] The size check of the upload branch (lines 292-303), taken on
    its own.  The branch saves the file first and then ends in the 400
    error "File too large" if and only if the stored size exceeds
    52,428,800 bytes; then the events are the save and the cleanup and
    nothing else.  A file of at most 52,428,800 bytes, that size
    included, goes on to classification, summary and dispatch, and the
    branch returns. *)
Theorem size_check_after_saving
  (env : Env) (depth : nat) (question : string) (file : UploadFile) (w : world) :
  let run := process_upload env (S depth) question file w in
  let size := Z.of_nat (length (content file)) in
  MAX_FILE_SIZE = 52428800%Z
  /\ (fst run = Raise (mkExn (HTTPException 400) "File too large")
      <-> (MAX_FILE_SIZE < size)%Z)
  /\ ((MAX_FILE_SIZE < size)%Z ->
      trace (snd run)
      = trace w ++ [EvMkdtemp (mkdtemp env); EvUploadRead (filename file);
                    EvWrite (upload_path env file) (length (content file));
                    EvRemove (upload_path env file); EvRmdir (mkdtemp env)])
  /\ ((size <= MAX_FILE_SIZE)%Z ->
      exists answer file_info, fst run = Ok (answer, Some file_info))
  /\ (size = MAX_FILE_SIZE ->
      exists answer file_info, fst run = Ok (answer, Some file_info)).
Proof.
  cbv zeta.
  assert (Haccept : (Z.of_nat (length (content file)) <= MAX_FILE_SIZE)%Z ->
                    exists answer file_info,
                      fst (process_upload env (S depth) question file w)
                      = Ok (answer, Some file_info)).
  { intros Hle.
    destruct (process_upload_accepted env depth question file w Hle)
      as [file_type [file_info [answer [events [_ [_ [_ ->]]]]]]].
    exists answer, file_info. reflexivity. }
  assert (Hreject : (MAX_FILE_SIZE < Z.of_nat (length (content file)))%Z ->
                    process_upload env (S depth) question file w
                    = (Raise (mkExn (HTTPException 400) "File too large"),
                       cleaned (upload_path env file) (mkdtemp env)
                               (saved_world env file w))).
  { intros Hgt. rewrite process_upload_run.
    replace (Z.of_nat (length (content file)) >? MAX_FILE_SIZE)%Z with true
      by (symmetry; apply Z.gtb_lt; lia).
    reflexivity. }
  split; [reflexivity |].
  split; [split |].
  - intros Hraise.
    destruct (Z_le_gt_dec (Z.of_nat (length (content file))) MAX_FILE_SIZE)
      as [Hle | Hgt]; [| lia].
    destruct (Haccept Hle) as [answer [file_info Hok]]. congruence.
  - intros Hgt. rewrite (Hreject Hgt). reflexivity.
  - split; [| split].
    + intros Hgt. rewrite (Hreject Hgt).
      cbn [snd trace cleaned saved_world]. rewrite <- !app_assoc. reflexivity.
    + exact Haccept.
    + intros Heq. apply Haccept. lia.
Qed.

(** [X26] The [prettier] branch of the dispatch (lines 308-310) cannot
    be reached.  Its condition implies the condition of the branch before
    it; a question that meets it is answered by [compute_sha256], with
    the digest of the file, by the dispatch and by the upload branch
    taken on its own; and no run of the upload branch or of the endpoint
    adds a run of the formatter to the trace. *)
Theorem prettier_branch_unreachable (env : Env) (depth : nat) (question : string) :
  (forall file_type,
      prettier_rule question file_type = true ->
      sha256sum_rule question file_type = true)
  /\ (forall file_type file_path temp_dir bytes w,
        prettier_rule question file_type = true ->
        files w !! file_path = Some bytes ->
        local_answer env question file_type file_path temp_dir w
        = (Ok (Some (Sha256.hex (Sha256.digest bytes))), w))
  /\ (forall file w,
        prettier_rule question "md" = true ->
        extension_map !! lower (snd (OsPath.splitext (upload_path env file))) = Some "md" ->
        (Z.of_nat (length (content file)) <= MAX_FILE_SIZE)%Z ->
        exists file_info,
          fst (process_upload env (S depth) question file w)
          = Ok (Some (Sha256.hex (Sha256.digest (content file))), Some file_info))
  /\ (forall file w e,
        formatter_event e ->
        In e (trace (snd (process_upload env depth question file w))) ->
        In e (trace w))
  /\ (forall file w e,
        formatter_event e ->
        In e (trace (snd (answer_question env depth question file w))) ->
        In e (trace w)).
Proof.
  split; [intros file_type; apply prettier_rule_implies_sha256sum_rule |].
  split.
  { intros file_type file_path temp_dir bytes w Hrule Hfile.
    rewrite local_answer_sha256sum
      by (apply prettier_rule_implies_sha256sum_rule; exact Hrule).
    rewrite (compute_sha256_of_file file_path bytes w Hfile). reflexivity. }
  split.
  { intros file w Hrule Hext Hsize.
    apply prettier_rule_implies_sha256sum_rule in Hrule.
    destruct (process_upload_accepted env depth question file w Hsize)
      as [file_type [file_info [answer [events [Hid [Hlocal [_ ->]]]]]]].
    exists file_info. cbn [fst].
    unfold identify_file_type in Hid. rewrite Hext in Hid.
    injection Hid as <-.
    rewrite (local_answer_sha256sum _ _ _ _ _ _ Hrule) in Hlocal.
    rewrite (compute_sha256_of_file _ (content file)) in Hlocal
      by (cbn [files saved_world]; apply lookup_insert_eq).
    cbn [fst outcome_map] in Hlocal. injection Hlocal as <-. reflexivity. }
  split.
  - intros file w e Hfmt.
    apply adds_no_formatter_event;
      [apply process_upload_adds_plain_events | exact Hfmt].
  - intros file w e Hfmt.
    apply adds_no_formatter_event;
      [apply answer_question_adds_plain_events | exact Hfmt].
Qed.

(** [C10] A question that meets the condition of the [prettier] branch
    is not answered with the digest at the endpoint.  The condition does
    imply the condition of the first branch, and the formatter is not
    run; but the request has a file, so the endpoint raises the
    [TypeError] of the validation step (line 284) and leaves the world
    as it was: no answer is produced, the digest of the upload least of
    all. *)
Theorem prettier_question_is_not_answered
  (env : Env) (depth : nat) (question : string) (file : UploadFile) (w : world) :
  prettier_rule question "md" = true ->
  sha256sum_rule question "md" = true
  /\ answer_question env depth question (Some file) w = (Raise await_bool_error, w)
  /\ fst (answer_question env depth question (Some file) w)
     <> Ok (mkJSONResponse (Sha256.hex (Sha256.digest (content file))))
  /\ forall command cwd,
       In (EvSubprocess command cwd)
          (trace (snd (answer_question env depth question (Some file) w))) ->
       In (EvSubprocess command cwd) (trace w).
Proof.
  intros Hrule.
  assert (Hrun : answer_question env depth question (Some file) w
                 = (Raise await_bool_error, w)).
  { unfold answer_question. apply bind_raise. apply bind_raise.
    unfold await, raise, await_bool_error. reflexivity. }
  split; [apply prettier_rule_implies_sha256sum_rule; exact Hrule |].
  split; [exact Hrun |]. rewrite Hrun. cbn [fst snd].
  split; [intros H; discriminate H |].
  intros command cwd H. exact H.
Qed.

Lemma prettier_question_is_not_answered_witness :
  sha256sum_rule "Run prettier on it, then sha256sum" "md" = true
  /\ answer_question env0 1 "Run prettier on it, then sha256sum"
       (Some (mkUpload "notes.md" [x23; x20; x68; x69]%byte)) empty_world
     = (Raise await_bool_error, empty_world)
  /\ fst (answer_question env0 1 "Run prettier on it, then sha256sum"
            (Some (mkUpload "notes.md" [x23; x20; x68; x69]%byte)) empty_world)
     <> Ok (mkJSONResponse (Sha256.hex (Sha256.digest [x23; x20; x68; x69]%byte)))
  /\ forall command cwd,
       In (EvSubprocess command cwd)
          (trace (snd (answer_question env0 1 "Run prettier on it, then sha256sum"
                         (Some (mkUpload "notes.md" [x23; x20; x68; x69]%byte))
                         empty_world))) ->
       In (EvSubprocess command cwd) (trace empty_world).
Proof.
  apply (prettier_question_is_not_answered env0 1 "Run prettier on it, then sha256sum"
           (mkUpload "notes.md" [x23; x20; x68; x69]%byte) empty_world).
  reflexivity.
Defined.


(** [C7] A request for the digest of a Markdown upload is not answered.
    With the question "sha256sum" and the upload [notes.md], whatever its
    bytes (none, or several read buffers), the endpoint raises the
    [TypeError] of the validation step; the answer is not the digest that
    [compute_sha256] yields for the same bytes. *)
Theorem sha256sum_upload_is_not_answered
  (env : Env) (depth : nat) (bytes : list byte) (w : world) :
  let run := answer_question env depth "sha256sum" (Some (mkUpload "notes.md" bytes)) w in
  fst run = Raise await_bool_error
  /\ fst run <> Ok (mkJSONResponse (Sha256.hex (Sha256.digest bytes)))
  /\ sha256sum_rule "sha256sum" "md" = true
  /\ fst (compute_sha256 "/up/notes.md"
            (mkWorld (<["/up/notes.md" := bytes]> ∅) [] []))
     = Ok (Sha256.hex (Sha256.digest bytes)).
Proof.
  cbv zeta.
  change (answer_question env depth "sha256sum" (Some (mkUpload "notes.md" bytes)) w)
    with (@Raise JSONResponse await_bool_error, w).
  cbn [fst]. split; [reflexivity |].
  split; [intros H; discriminate H |].
  split; [reflexivity |].
  rewrite (compute_sha256_of_file "/up/notes.md" bytes).
  - reflexivity.
  - cbn [files]. apply lookup_insert_eq.
Qed.

(** ** The digest as the answer of the upload branch *)

Lemma startswith_lower (s p : string) :
  startswith s p = true -> startswith (lower s) (lower p) = true.
Proof.
  revert s. induction p as [| b p IH]; intros s H; [destruct s; reflexivity |].
  destruct s as [| a s]; [discriminate H |].
  cbn [startswith lower] in *.
  apply andb_true_iff in H. destruct H as [Hab Hrest].
  apply Ascii.eqb_eq in Hab. subst b.
  rewrite Ascii.eqb_refl. cbn [andb]. apply IH. exact Hrest.
Qed.

(** A question that contains a word contains it still in lower case. *)
Lemma contains_lower (hay needle : string) :
  contains hay needle = true -> contains (lower hay) (lower needle) = true.
Proof.
  induction hay as [| c hay IH]; intros H.
  - cbn [contains lower] in *. rewrite orb_false_r in *.
    apply startswith_lower in H. exact H.
  - cbn [contains lower] in *.
    apply orb_true_iff in H. destruct H as [H | H].
    + apply (startswith_lower (String c hay)) in H. cbn [lower] in H.
      rewrite H. reflexivity.
    + rewrite (IH H). apply orb_true_r.
Qed.

Lemma compress_length (h block : list N) : length (Sha256.compress h block) = 8%nat.
Proof. reflexivity. Qed.

Lemma fold_compress_length (blocks : list (list N)) :
  forall h, length h = 8%nat -> length (fold_left Sha256.compress blocks h) = 8%nat.
Proof.
  induction blocks as [| block blocks IH]; intros h Hh; [exact Hh |].
  cbn [fold_left]. apply IH. apply compress_length.
Qed.

Lemma be_bytes_length (n : nat) (x : N) : length (Sha256.be_bytes n x) = n.
Proof.
  induction n as [| n IH]; [reflexivity |].
  cbn [Sha256.be_bytes length]. rewrite IH. reflexivity.
Qed.

Lemma be_bytes_small (n : nat) (x : N) :
  Forall (fun b => (b < 256)%N) (Sha256.be_bytes n x).
Proof.
  induction n as [| n IH]; [constructor |].
  cbn [Sha256.be_bytes]. constructor; [| exact IH].
  change 255%N with (N.ones 8). rewrite N.land_ones. apply N.mod_lt. discriminate.
Qed.

(** A digest has 32 bytes. *)
Lemma digest_length (msg : list byte) : length (Sha256.digest msg) = 32%nat.
Proof.
  unfold Sha256.digest.
  set (blocks := Sha256.pieces 64 _ _).
  pose proof (fold_compress_length blocks Sha256.H0 eq_refl) as H.
  destruct (fold_left Sha256.compress blocks Sha256.H0)
    as [| a [| b [| c [| d [| e [| f [| g [| h [| i l]]]]]]]]]; try discriminate H.
  cbn [flat_map]. rewrite !length_app, !be_bytes_length. reflexivity.
Qed.

Lemma digest_small (msg : list byte) :
  Forall (fun b => (b < 256)%N) (Sha256.digest msg).
Proof.
  unfold Sha256.digest.
  induction (fold_left Sha256.compress _ Sha256.H0) as [| x l IH]; [constructor |].
  cbn [flat_map]. apply Forall_app. split; [apply be_bytes_small | exact IH].
Qed.

Lemma hex_digit_lower (n : N) : (n < 16)%N -> is_lower_hex (Sha256.hex_digit n) = true.
Proof.
  intros H. destruct n as [| p]; [reflexivity |].
  do 4 (destruct p as [p | p |]; try reflexivity); exfalso; lia.
Qed.

(** Two lowercase hexadecimal digits per byte. *)
Lemma hex_format (bs : list N) :
  Forall (fun b => (b < 256)%N) bs ->
  String.length (Sha256.hex bs) = (2 * length bs)%nat
  /\ all_chars is_lower_hex (Sha256.hex bs) = true.
Proof.
  induction 1 as [| b bs Hb _ [IHlen IHhex]]; [split; reflexivity |].
  cbn [Sha256.hex String.length all_chars length]. split; [lia |].
  rewrite IHhex, !hex_digit_lower; [reflexivity | |].
  - change 15%N with (N.ones 4). rewrite N.land_ones. apply N.mod_lt. discriminate.
  - rewrite N.shiftr_div_pow2. change (2 ^ 4)%N with 16%N.
    apply N.Div0.div_lt_upper_bound. lia.
Qed.

(** [X1] [compute_sha256] on a file that exists returns the lowercase
    hexadecimal SHA-256 digest of the whole content, independent of the
    size: the loop over reads of 8192 bytes feeds the hash object exactly
    the bytes of the file, in order, and ends; the result has 64
    characters, each a lowercase hexadecimal digit. *)
Theorem streaming_digest_is_whole_digest
  (file_path : string) (bytes : list byte) (w : world) :
  files w !! file_path = Some bytes ->
  read_chunks (S (length bytes)) bytes Sha256.new w
    = (Ok (Sha256.update Sha256.new bytes), w)
  /\ compute_sha256 file_path w
    = (Ok (Sha256.hexdigest (Sha256.update Sha256.new bytes)), w)
  /\ String.length (Sha256.hexdigest (Sha256.update Sha256.new bytes)) = 64%nat
  /\ all_chars is_lower_hex (Sha256.hexdigest (Sha256.update Sha256.new bytes)) = true.
Proof.
  intros Hfile. split; [| split].
  - rewrite read_chunks_feeds_all by lia. reflexivity.
  - rewrite (compute_sha256_of_file file_path bytes w Hfile). reflexivity.
  - unfold Sha256.hexdigest.
    destruct (hex_format _ (digest_small (Sha256.fed (Sha256.update Sha256.new bytes))))
      as [Hlen Hhex].
    rewrite Hlen, digest_length. split; [reflexivity | exact Hhex].
Qed.

Lemma streaming_digest_is_whole_digest_witness :
  read_chunks 1 [] Sha256.new empty_md_world
    = (Ok (Sha256.update Sha256.new []), empty_md_world)
  /\ compute_sha256 "/up/empty.md" empty_md_world
    = (Ok (Sha256.hexdigest (Sha256.update Sha256.new [])), empty_md_world)
  /\ String.length (Sha256.hexdigest (Sha256.update Sha256.new [])) = 64%nat
  /\ all_chars is_lower_hex (Sha256.hexdigest (Sha256.update Sha256.new [])) = true.
Proof.
  apply (streaming_digest_is_whole_digest "/up/empty.md" [] empty_md_world).
  reflexivity.
Defined.

(** A file of no bytes, and one that spans three reads. *)
Example compute_sha256_empty_file :
  fst (compute_sha256 "/up/empty.md" empty_md_world)
  = Ok "e3b0c44298fc1c149afbf4c8996fb92427ae41e4649b934ca495991b7852b855".
Proof. vm_compute. reflexivity. Qed.

Example compute_sha256_three_reads :
  fst (compute_sha256 "/up/big.md"
         (mkWorld (<["/up/big.md" := repeat x61%byte 20000]> ∅) [] []))
  = Ok "cc17faaad36649c4603dda4d8ff97cb149722af0bcac0746305a2134ad2d0b97".
Proof. vm_compute. reflexivity. Qed.

(** [X2] The first rule of the dispatch, taken on its own: in the upload
    branch, a question that contains "sha256sum" (in any case) about a
    saved file classified [md] by its extension and within the size
    ceiling is answered with the SHA-256 digest of the exact bytes of the
    upload. *)
Theorem upload_branch_answers_with_digest
  (env : Env) (depth : nat) (question : string) (file : UploadFile) (w : world) :
  contains (lower question) "sha256sum" = true ->
  extension_map !! lower (snd (OsPath.splitext (upload_path env file))) = Some "md" ->
  (Z.of_nat (length (content file)) <= MAX_FILE_SIZE)%Z ->
  exists file_info,
    fst (process_upload env (S depth) question file w)
    = Ok (Some (Sha256.hex (Sha256.digest (content file))), Some file_info).
Proof.
  intros Hq Hext Hsize.
  destruct (process_upload_accepted env depth question file w Hsize)
    as [file_type [file_info [answer [events [Hid [Hlocal [_ ->]]]]]]].
  exists file_info. cbn [fst].
  unfold identify_file_type in Hid. rewrite Hext in Hid.
  injection Hid as <-.
  rewrite local_answer_sha256sum in Hlocal
    by (unfold sha256sum_rule; rewrite Hq; reflexivity).
  rewrite (compute_sha256_of_file _ (content file)) in Hlocal
    by (cbn [files saved_world]; apply lookup_insert_eq).
  cbn [fst outcome_map] in Hlocal. injection Hlocal as <-. reflexivity.
Qed.

Lemma upload_branch_answers_with_digest_witness :
  exists file_info,
    fst (process_upload env0 1 "What is the SHA256SUM of this file?"
                        (mkUpload "notes.md" [x23; x20; x68; x69]%byte) empty_world)
    = Ok (Some (Sha256.hex (Sha256.digest [x23; x20; x68; x69]%byte)), Some file_info).
Proof.
  apply (upload_branch_answers_with_digest env0 0
           "What is the SHA256SUM of this file?"
           (mkUpload "notes.md" [x23; x20; x68; x69]%byte) empty_world).
  - reflexivity.
  - reflexivity.
  - vm_compute. discriminate.
Defined.

Example upload_branch_digest_value :
  fst (process_upload env0 1 "What is the SHA256SUM of this file?"
                      (mkUpload "notes.md" [x23; x20; x68; x69]%byte) empty_world)
  = Ok (Some "8a5d8b28d66ae90b5876fe0337b963d9f66ab1047f8c866ff4646b73a8a3aa41",
        Some ("Markdown file content:" +:+ nl +:+ "# hi")).
Proof. vm_compute. reflexivity. Qed.

(** [X4] The failures of the remote call that [generate_response] does
    turn into an answer: an exception of requests on the call itself, an
    error status, and a JSON object without candidates (or with an empty
    list of them) each give a descriptive string, not an exception. *)
Theorem remote_failures_become_answers
  (env : Env) (question : string) (file_info : option string) (w : world) :
  (forall e,
      http_post env system_prompt (message_prompt question file_info) = inl e ->
      isinstance (exn_cls e) RequestException = true ->
      fst (generate_response env question file_info w)
      = Ok ("Error calling LLM API: " +:+ str_exn e))
  /\ (forall response,
        http_post env system_prompt (message_prompt question file_info) = inr response ->
        (400 <= status_code response < 600)%Z ->
        exists msg,
          fst (generate_response env question file_info w)
          = Ok ("Error calling LLM API: " +:+ msg))
  /\ (forall response fields,
        http_post env system_prompt (message_prompt question file_info) = inr response ->
        (status_code response < 400)%Z ->
        resp_json response = Some (JObj fields) ->
        Py.dict_lookup "candidates" fields = None
        \/ Py.dict_lookup "candidates" fields = Some (JArr []) ->
        fst (generate_response env question file_info w)
        = Ok "Error: Could not extract answer from model response").
Proof.
  split; [| split].
  - intros e. apply generate_response_request_failed.
  - intros response. apply generate_response_http_error.
  - intros response fields. apply generate_response_no_candidates.
Qed.

Lemma remote_failures_become_answers_witness :
  fst (generate_response
         (stub_env (inr []) (inl (mkExn RequestException "Read timed out.")))
         "What is 2 + 2?" None empty_world)
  = Ok "Error calling LLM API: Read timed out.".
Proof.
  apply (proj1 (remote_failures_become_answers
                  (stub_env (inr []) (inl (mkExn RequestException "Read timed out.")))
                  "What is 2 + 2?" None empty_world)
               (mkExn RequestException "Read timed out.")).
  - reflexivity.
  - reflexivity.
Defined.

(** [X5] A supported extension decides the classification, whatever the
    file holds and whether it exists: no probe runs. *)
Theorem extension_decides_file_type
  (env : Env) (file_path file_type : string) (w : world) :
  extension_map !! lower (snd (OsPath.splitext file_path)) = Some file_type ->
  identify_file_type env file_path w = (Ok file_type, w)
  /\ In file_type ["zip"; "csv"; "excel"; "md"].
Proof.
  intros Hext. split.
  - unfold identify_file_type. rewrite Hext. reflexivity.
  - apply (extension_map_values _ _ Hext).
Qed.

Lemma extension_decides_file_type_witness :
  identify_file_type env0 "/up/Report.XLSX" empty_world = (Ok "excel", empty_world)
  /\ In "excel" ["zip"; "csv"; "excel"; "md"].
Proof.
  apply (extension_decides_file_type env0 "/up/Report.XLSX" "excel" empty_world).
  reflexivity.
Defined.

(** ** Python's string tests *)

Lemma str_append_cons (c : ascii) (a b : string) :
  String c a +:+ b = String c (a +:+ b).
Proof. reflexivity. Qed.

Lemma str_length_append (a b : string) :
  String.length (a +:+ b) = (String.length a + String.length b)%nat.
Proof.
  induction a as [| c a IH]; [reflexivity |].
  rewrite str_append_cons. cbn [String.length]. rewrite IH. reflexivity.
Qed.

Lemma str_take_drop (n : nat) (s : string) : take n s +:+ drop n s = s.
Proof.
  revert s. induction n as [| n IH]; intros s; [reflexivity |].
  destruct s as [| c s]; [reflexivity |].
  cbn [take drop]. rewrite str_append_cons, IH. reflexivity.
Qed.

Lemma str_drop_append (a b : string) : drop (String.length a) (a +:+ b) = b.
Proof.
  induction a as [| c a IH]; [reflexivity |].
  rewrite str_append_cons. cbn [String.length drop]. exact IH.
Qed.

Lemma str_append_assoc (a b c : string) : (a +:+ b) +:+ c = a +:+ (b +:+ c).
Proof.
  induction a as [| x a IH]; [reflexivity |].
  rewrite !str_append_cons, IH. reflexivity.
Qed.

(** [s.endswith(suffix)] holds exactly when [s] is something followed by
    [suffix]. *)
Lemma endswith_iff (s suffix : string) :
  endswith s suffix = true <-> exists stem, s = stem +:+ suffix.
Proof.
  unfold endswith. split.
  - intros H. apply andb_true_iff in H. destruct H as [_ H].
    apply String.eqb_eq in H.
    exists (take (String.length s - String.length suffix) s).
    pose proof (str_take_drop (String.length s - String.length suffix) s) as T.
    rewrite H in T. symmetry. exact T.
  - intros [stem ->]. rewrite str_length_append.
    apply andb_true_iff. split.
    + apply Nat.leb_le. lia.
    + replace (String.length stem + String.length suffix - String.length suffix)%nat
        with (String.length stem) by lia.
      rewrite str_drop_append. apply String.eqb_refl.
Qed.

Lemma lower_ascii_idempotent (c : ascii) : lower_ascii (lower_ascii c) = lower_ascii c.
Proof.
  destruct c as [[] [] [] [] [] [] [] []]; reflexivity.
Qed.

Lemma lower_idempotent (s : string) : lower (lower s) = lower s.
Proof.
  induction s as [| c s IH]; [reflexivity |].
  cbn [lower]. rewrite lower_ascii_idempotent, IH. reflexivity.
Qed.

Lemma lower_drop (n : nat) (s : string) : lower (drop n s) = drop n (lower s).
Proof.
  revert s. induction n as [| n IH]; intros s; [reflexivity |].
  destruct s as [| c s]; [reflexivity |].
  cbn [drop lower]. apply IH.
Qed.

Lemma allowed_extensions_elements :
  elements ALLOWED_EXTENSIONS = ["csv"; "md"; "zip"; "xlsx"; "xls"].
Proof. vm_compute. reflexivity. Qed.

(** The validation accepts a name exactly when its lower-case form ends
    in one of the five words; nothing asks for a dot before the word. *)
Lemma is_file_allowed_iff (filename : string) :
  is_file_allowed filename = true
  <-> exists stem ext,
        In ext ["csv"; "xlsx"; "xls"; "zip"; "md"] /\ lower filename = stem +:+ ext.
Proof.
  unfold is_file_allowed. rewrite allowed_extensions_elements, existsb_exists.
  split.
  - intros [ext [Hin Hend]]. apply endswith_iff in Hend. destruct Hend as [stem Hs].
    exists stem, ext. split; [| exact Hs]. cbn [In] in *. tauto.
  - intros [stem [ext [Hin Hs]]]. exists ext. split; [cbn [In] in *; tauto |].
    apply endswith_iff. exists stem. exact Hs.
Qed.

(** [X6] The validation test, in full: [is_file_allowed] accepts a name
    exactly when its lower-cased form ends in one of the five words csv,
    xlsx, xls, zip, md, whether or not a dot stands before the word; and
    the verdict on a name is the verdict on its lower-cased form. *)
Theorem allowed_names_end_in_listed_word (filename : string) :
  (is_file_allowed filename = true
   <-> exists stem ext,
         In ext ["csv"; "xlsx"; "xls"; "zip"; "md"] /\ lower filename = stem +:+ ext)
  /\ is_file_allowed (lower filename) = is_file_allowed filename.
Proof.
  split; [apply is_file_allowed_iff |].
  unfold is_file_allowed. rewrite lower_idempotent. reflexivity.
Qed.

Lemma extension_map_entries (extension file_type : string) :
  extension_map !! extension = Some file_type ->
  In (extension, file_type)
     [(".csv", "csv"); (".md", "md"); (".zip", "zip"); (".xlsx", "excel"); (".xls", "excel")].
Proof.
  intros H. apply elem_of_map_to_list in H. apply list_elem_of_In in H.
  assert (E : map_to_list extension_map
              = [(".csv", "csv"); (".md", "md"); (".zip", "zip");
                 (".xlsx", "excel"); (".xls", "excel")]) by (vm_compute; reflexivity).
  rewrite E in H. exact H.
Qed.

(** The extension [os.path.splitext] gives is empty or what follows some
    position of the path. *)
Lemma splitext_extension (p : string) :
  snd (OsPath.splitext p) = EmptyString \/ exists d, snd (OsPath.splitext p) = drop d p.
Proof.
  unfold OsPath.splitext. destruct (rfind "." p) as [d |]; [| left; reflexivity].
  destruct (_ && _); [right; exists d; reflexivity | left; reflexivity].
Qed.

(** [X7] The validation accepts every name the classifier recognises by
    its extension: when the lower-cased extension of a name is one of
    .zip, .csv, .xlsx, .xls, .md, [is_file_allowed] holds of the name. *)
Theorem recognised_extension_is_allowed (name file_type : string) :
  extension_map !! lower (snd (OsPath.splitext name)) = Some file_type ->
  is_file_allowed name = true.
Proof.
  intros Hext. apply extension_map_entries in Hext.
  destruct (splitext_extension name) as [E | [d E]]; rewrite E in Hext.
  - cbn [In lower] in Hext.
    repeat (destruct Hext as [Hext | Hext]; [discriminate Hext |]). destruct Hext.
  - rewrite lower_drop in Hext.
    pose proof (str_take_drop d (lower name)) as Hsplit.
    apply is_file_allowed_iff.
    cbn [In] in Hext.
    repeat (destruct Hext as [Hext | Hext];
            [injection Hext as Hdrop _; rewrite <- Hdrop in Hsplit;
             match type of Hsplit with
             | _ +:+ String "." ?ext = _ =>
                 exists (take d (lower name) +:+ "."), ext;
                 split; [cbn [In]; tauto | rewrite str_append_assoc; symmetry; exact Hsplit]
             end |]).
    destruct Hext.
Qed.

Lemma recognised_extension_is_allowed_witness : is_file_allowed "Report.XLSX" = true.
Proof.
  apply (recognised_extension_is_allowed "Report.XLSX" "excel").
  reflexivity.
Defined.

(** ** The classifier, completed *)

Lemma identify_file_type_range (env : Env) (file_path : string) (w : world) :
  exists file_type,
    identify_file_type env file_path w = (Ok file_type, w)
    /\ In file_type ["zip"; "csv"; "excel"; "md"; "unknown"].
Proof.
  destruct (quiet_pd_read_csv env file_path (Some 1%nat) w) as [rc [Ec Hc]].
  destruct (quiet_pd_read_excel env file_path (Some 1%nat) w) as [rx [Ex Hx]].
  unfold identify_file_type.
  destruct (extension_map !! lower (snd (OsPath.splitext file_path)))
    as [file_type |] eqn:Hext.
  - exists file_type. split; [reflexivity |].
    apply extension_map_entries in Hext. cbn [In] in *.
    repeat (destruct Hext as [Hext | Hext]; [injection Hext as _ <-; tauto |]).
    destruct Hext.
  - unfold bind, try_except. rewrite Ec.
    destruct rc as [df | e |]; [ | | congruence].
    + exists "csv". split; [reflexivity | cbn [In]; tauto].
    + destruct (isinstance (exn_cls e) EmptyDataError).
      * exists "unknown". split; [reflexivity | cbn [In]; tauto].
      * rewrite Ex. destruct rx as [sheets | e' |]; [ | | congruence].
        -- exists "excel". split; [reflexivity | cbn [In]; tauto].
        -- exists "unknown". split; [reflexivity | cbn [In]; tauto].
Qed.

(** [X8] The classifier always answers, with one of five tags: whatever
    the path, the file system and the parsers do, [identify_file_type]
    returns zip, csv, excel, md or unknown, raises nothing and leaves the
    world as it was. *)
Theorem file_type_is_one_of_five (env : Env) (file_path : string) (w : world) :
  exists file_type,
    identify_file_type env file_path w = (Ok file_type, w)
    /\ In file_type ["zip"; "csv"; "excel"; "md"; "unknown"].
Proof.
  destruct (identify_file_type_range env file_path w) as [file_type [Hrun Hin]].
  exists file_type. split; [exact Hrun | exact Hin].
Qed.

(** [X9] The content probes, for a path whose extension is absent or
    unrecognized.  A file that does not exist is [unknown].  The CSV
    probe runs first and, when it succeeds, decides [csv].  The answer is
    [excel] exactly when the CSV probe raised something other than empty
    data and the spreadsheet probe succeeded. *)
Theorem content_probe_order (env : Env) (file_path : string) (w : world) :
  extension_map !! lower (snd (OsPath.splitext file_path)) = None ->
  (files w !! file_path = None ->
   identify_file_type env file_path w = (Ok "unknown", w))
  /\ (forall df,
        fst (pd_read_csv env file_path (Some 1%nat) w) = Ok df ->
        identify_file_type env file_path w = (Ok "csv", w))
  /\ (fst (identify_file_type env file_path w) = Ok "excel"
      <-> exists e sheets,
            fst (pd_read_csv env file_path (Some 1%nat) w) = Raise e
            /\ isinstance (exn_cls e) EmptyDataError = false
            /\ fst (pd_read_excel env file_path (Some 1%nat) w) = Ok sheets).
Proof.
  intros Hext.
  destruct (quiet_pd_read_csv env file_path (Some 1%nat) w) as [rc [Ec Hc]].
  destruct (quiet_pd_read_excel env file_path (Some 1%nat) w) as [rx [Ex Hx]].
  split; [| split].
  - intros Hnone. unfold identify_file_type. rewrite Hext.
    unfold bind, try_except, pd_read_csv, pd_read_excel, bind, read_file.
    rewrite Hnone. cbn. rewrite Hnone. reflexivity.
  - intros df Hdf. rewrite Ec in Hdf. cbn [fst] in Hdf. subst rc.
    unfold identify_file_type. rewrite Hext.
    unfold bind, try_except. rewrite Ec. reflexivity.
  - unfold identify_file_type. rewrite Hext.
    unfold bind, try_except. rewrite Ec. cbn [fst].
    destruct rc as [df | e |]; [ | | congruence].
    + cbn. split; [intros H; discriminate H | intros [e [sheets [H _]]]; discriminate H].
    + destruct (isinstance (exn_cls e) EmptyDataError) eqn:Hempty.
      * cbn -[isinstance]. split; [intros H; discriminate H |].
        intros [e0 [sheets [H [H0 _]]]]. injection H as <-. congruence.
      * rewrite Ex. cbn [fst].
        destruct rx as [sheets | e' |]; [ | | congruence]; cbn -[isinstance].
        -- split; [| reflexivity].
           intros _. exists e, sheets. repeat split. exact Hempty.
        -- split; [intros H; discriminate H |].
           intros [e0 [sheets [_ [_ H]]]]. discriminate H.
Qed.

Lemma content_probe_order_witness :
  identify_file_type env0 "/up/data" empty_world = (Ok "unknown", empty_world).
Proof.
  apply (proj1 (content_probe_order env0 "/up/data" empty_world eq_refl)).
  reflexivity.
Defined.

(** ** The summaries, text by text *)

Lemma join_labels_from_strs (cols : list label) :
  forall i, forallb is_str cols = true -> join_labels_from i cols = inr (str_labels cols).
Proof.
  induction cols as [| [s | ty] cols IH]; intros i H.
  - reflexivity.
  - cbn [join_labels_from]. rewrite (IH (S i)) by exact H. reflexivity.
  - discriminate H.
Qed.

Lemma join_labels_from_other (good : list label) (ty : string) (rest : list label) :
  forall i,
    forallb is_str good = true ->
    join_labels_from i (good ++ LOther ty :: rest)
    = inl (mkExn TypeError (join_error (i + length good) ty)).
Proof.
  induction good as [| [s | ty'] good IH]; intros i H.
  - cbn [app join_labels_from length]. rewrite Nat.add_0_r. reflexivity.
  - cbn [app join_labels_from length]. rewrite (IH (S i)) by exact H.
    replace (S i + length good)%nat with (i + S (length good))%nat by lia. reflexivity.
  - discriminate H.
Qed.

Lemma join_labels_from_inr (cols : list label) :
  forall i l, join_labels_from i cols = inr l -> l = str_labels cols.
Proof.
  induction cols as [| [s | ty] cols IH]; intros i l H.
  - injection H as <-. reflexivity.
  - cbn [join_labels_from] in H.
    destruct (join_labels_from (S i) cols) as [e | l'] eqn:E; [discriminate H |].
    injection H as <-. rewrite (IH _ _ E). reflexivity.
  - discriminate H.
Qed.

Lemma join_labels_from_inl (cols : list label) :
  forall i e, join_labels_from i cols = inl e -> exn_cls e = TypeError.
Proof.
  induction cols as [| [s | ty] cols IH]; intros i e H.
  - discriminate H.
  - cbn [join_labels_from] in H.
    destruct (join_labels_from (S i) cols) as [e' | l'] eqn:E; [| discriminate H].
    injection H as <-. apply (IH _ _ E).
  - injection H as <-. reflexivity.
Qed.

Lemma join_columns_run (df : DataFrame) (w : world) :
  join_columns df w
  = (match join_labels_from 0 (df_columns df) with
     | inl e => Raise e
     | inr l => Ok (join ", " l)
     end, w).
Proof.
  unfold join_columns, bind, lift.
  destruct (join_labels_from 0 (df_columns df)); reflexivity.
Qed.

Lemma sheet_report_run (sheet : string * DataFrame) (w : world) :
  sheet_report sheet w
  = (match join_labels_from 0 (df_columns (snd sheet)) with
     | inl e => Raise e
     | inr _ => Ok (sheet_summary sheet)
     end, w).
Proof.
  destruct sheet as [sheet_name df]. unfold sheet_report, bind.
  rewrite join_columns_run. cbn [snd].
  destruct (join_labels_from 0 (df_columns df)) as [e | l] eqn:E; [reflexivity |].
  apply join_labels_from_inr in E. subst l. reflexivity.
Qed.

(** The reports of sheets whose labels are all strings. *)
Lemma sheet_reports_strs (sheets : list (string * DataFrame)) (w : world) :
  forallb (fun sheet => all_str_labels (snd sheet)) sheets = true ->
  sheet_reports sheets w = (Ok (map sheet_summary sheets), w).
Proof.
  induction sheets as [| sheet sheets IH]; intros H; [reflexivity |].
  cbn [forallb] in H. apply andb_true_iff in H. destruct H as [Hs Hrest].
  cbn [sheet_reports map]. unfold bind at 1. rewrite sheet_report_run.
  rewrite (join_labels_from_strs _ 0 Hs).
  unfold bind. rewrite (IH Hrest). reflexivity.
Qed.

(** The first sheet with a label that is not a string stops the reports. *)
Lemma sheet_reports_other (good : list (string * DataFrame)) (sheet : string * DataFrame)
      (rest : list (string * DataFrame)) (e : exn) (w : world) :
  forallb (fun sheet => all_str_labels (snd sheet)) good = true ->
  join_labels_from 0 (df_columns (snd sheet)) = inl e ->
  sheet_reports (good ++ sheet :: rest) w = (Raise e, w).
Proof.
  induction good as [| g good IH]; intros H E.
  - cbn [app sheet_reports]. unfold bind at 1. rewrite sheet_report_run, E. reflexivity.
  - cbn [forallb] in H. apply andb_true_iff in H. destruct H as [Hg Hrest].
    cbn [app sheet_reports]. unfold bind at 1. rewrite sheet_report_run.
    rewrite (join_labels_from_strs _ 0 Hg).
    unfold bind. rewrite (IH Hrest E). reflexivity.
Qed.

(** Whatever the sheets, a list of reports is the list of their texts. *)
Lemma sheet_reports_ok (sheets : list (string * DataFrame)) :
  forall (w w' : world) (info : list string),
    sheet_reports sheets w = (Ok info, w') -> info = map sheet_summary sheets.
Proof.
  induction sheets as [| sheet sheets IH]; intros w w' info H.
  - injection H as <- _. reflexivity.
  - cbn [sheet_reports] in H. unfold bind at 1 in H. rewrite sheet_report_run in H.
    destruct (join_labels_from 0 (df_columns (snd sheet))); [discriminate H |].
    unfold bind in H.
    destruct (sheet_reports sheets w) as [[rs | e |] w1] eqn:E; try discriminate H.
    injection H as <- _. rewrite (IH _ _ _ E). reflexivity.
Qed.

(** An exception of the reports is the [TypeError] of a join. *)
Lemma sheet_reports_raise (sheets : list (string * DataFrame)) :
  forall (w w' : world) (e : exn),
    sheet_reports sheets w = (Raise e, w') -> exn_cls e = TypeError.
Proof.
  induction sheets as [| sheet sheets IH]; intros w w' e H.
  - discriminate H.
  - cbn [sheet_reports] in H. unfold bind at 1 in H. rewrite sheet_report_run in H.
    destruct (join_labels_from 0 (df_columns (snd sheet))) as [e0 | l] eqn:E.
    + injection H as <- _. apply (join_labels_from_inl _ _ _ E).
    + unfold bind in H.
      destruct (sheet_reports sheets w) as [[rs | e1 |] w1] eqn:E1; try discriminate H.
      injection H as <- _. apply (IH _ _ _ E1).
Qed.

Lemma collect_file_data_by_type (env : Env) (depth : nat) (file_path : string)
      (w : world) (file_type : string) :
  identify_file_type env file_path w = (Ok file_type, w) ->
  collect_file_data env (S depth) file_path w
  = match processing_functions !! file_type with
    | Some Handle_zip_file =>
        handle_zip_file env (collect_file_data env depth) file_path w
    | Some Handle_csv_file => handle_csv_file env file_path 5 w
    | Some Handle_excel_file => handle_excel_file env file_path w
    | Some HandleMarkdownFile => handleMarkdownFile env file_path w
    | None => (Ok "Unsupported file type", w)
    end.
Proof.
  intros Hid. cbn [collect_file_data]. unfold bind, await. rewrite Hid.
  destruct (processing_functions !! file_type) as [[] |]; reflexivity.
Qed.

Lemma handle_csv_file_read (env : Env) (csv_path : string) (n : nat)
      (bytes : list byte) (df : DataFrame) (w : world) :
  files w !! csv_path = Some bytes ->
  parse_csv env None bytes = inr df ->
  handle_csv_file env csv_path n w
  = (match join_labels_from 0 (df_columns df) with
     | inl e => Ok ("Error processing CSV: " +:+ str_exn e)
     | inr _ => Ok (csv_summary df n)
     end, w).
Proof.
  intros Hfile Hparse.
  unfold handle_csv_file, try_except, bind at 1, pd_read_csv, bind at 1, read_file.
  rewrite Hfile. unfold lift at 1. rewrite Hparse. unfold ret at 1.
  unfold bind. rewrite join_columns_run.
  destruct (join_labels_from 0 (df_columns df)) as [e | l] eqn:E.
  - apply join_labels_from_inl in E. unfold raise. rewrite E. reflexivity.
  - apply join_labels_from_inr in E. subst l. reflexivity.
Qed.

Lemma handle_excel_file_read (env : Env) (excel_path : string)
      (bytes : list byte) (sheets : list (string * DataFrame)) (w : world) :
  files w !! excel_path = Some bytes ->
  parse_excel env None bytes = inr sheets ->
  handle_excel_file env excel_path w
  = (match fst (sheet_reports sheets w) with
     | Ok info => Ok (join (nl +:+ nl) info)
     | Raise e => Ok ("Error processing Excel file: " +:+ str_exn e)
     | OutOfFuel => OutOfFuel
     end, w).
Proof.
  intros Hfile Hparse.
  unfold handle_excel_file, try_except, bind at 1, pd_read_excel, bind at 1, read_file.
  rewrite Hfile. unfold lift at 1. rewrite Hparse. unfold ret at 1.
  unfold bind.
  destruct (quiet_sheet_reports sheets w) as [r [E Hr]]. rewrite E. cbn [fst].
  destruct r as [info | e |]; [reflexivity | | congruence].
  apply sheet_reports_raise in E. unfold raise. rewrite E. reflexivity.
Qed.

(** [X10] The summary of a CSV file that parses into a frame whose
    column labels are all strings: the row and column counts of the
    frame, the labels joined by a comma and a space, and the preview of
    the first rows printed without the index.  Through
    [collect_file_data] (extension .csv) the preview has five rows. *)
Theorem csv_summary_text (env : Env) (depth : nat) (csv_path : string) (n : nat)
        (bytes : list byte) (df : DataFrame) (w : world) :
  files w !! csv_path = Some bytes ->
  parse_csv env None bytes = inr df ->
  all_str_labels df = true ->
  handle_csv_file env csv_path n w = (Ok (csv_summary df n), w)
  /\ (lower (snd (OsPath.splitext csv_path)) = ".csv" ->
      collect_file_data env (S depth) csv_path w = (Ok (csv_summary df 5), w)).
Proof.
  intros Hfile Hparse Hstr.
  assert (Hrun : forall k, handle_csv_file env csv_path k w = (Ok (csv_summary df k), w)).
  { intros k. rewrite (handle_csv_file_read env csv_path k bytes df w Hfile Hparse).
    rewrite (join_labels_from_strs _ 0 Hstr). reflexivity. }
  split; [apply Hrun |].
  intros Hext.
  rewrite (collect_file_data_by_type env depth csv_path w "csv").
  - apply Hrun.
  - unfold identify_file_type. rewrite Hext. reflexivity.
Qed.

Lemma csv_summary_text_witness :
  handle_csv_file env0 "/up/data.csv" 3 csv_world = (Ok (csv_summary stub_frame 3), csv_world)
  /\ collect_file_data env0 1 "/up/data.csv" csv_world
     = (Ok (csv_summary stub_frame 5), csv_world).
Proof.
  destruct (csv_summary_text env0 0 "/up/data.csv" 3
              [x61; x2c; x62; x0a; x31; x2c; x32; x0a]%byte stub_frame csv_world)
    as [Hhandler Hcollect].
  - reflexivity.
  - reflexivity.
  - reflexivity.
  - split; [exact Hhandler | apply Hcollect; reflexivity].
Defined.

(** [X11] The summary of a workbook whose sheets all have string
    labels: one report per sheet, in the order of the sheets, with an
    empty line between two reports; a workbook without sheets gives the
    empty string. *)
Theorem excel_summary_text (env : Env) (excel_path : string)
        (bytes : list byte) (sheets : list (string * DataFrame)) (w : world) :
  files w !! excel_path = Some bytes ->
  parse_excel env None bytes = inr sheets ->
  forallb (fun sheet => all_str_labels (snd sheet)) sheets = true ->
  handle_excel_file env excel_path w
    = (Ok (join (nl +:+ nl) (map sheet_summary sheets)), w)
  /\ (sheets = [] -> handle_excel_file env excel_path w = (Ok EmptyString, w)).
Proof.
  intros Hfile Hparse Hstr.
  rewrite (handle_excel_file_read env excel_path bytes sheets w Hfile Hparse).
  rewrite (sheet_reports_strs sheets w Hstr). cbn [fst].
  split; [reflexivity |]. intros ->. reflexivity.
Qed.

Lemma excel_summary_text_witness :
  handle_excel_file plain_workbook_env "/up/book.xlsx" workbook_world
  = (Ok (join (nl +:+ nl) (map sheet_summary plain_sheets)), workbook_world).
Proof.
  destruct (excel_summary_text plain_workbook_env "/up/book.xlsx"
              [x50; x4b; x03; x04]%byte plain_sheets workbook_world)
    as [Hsummary _].
  - reflexivity.
  - reflexivity.
  - reflexivity.
  - exact Hsummary.
Defined.

Example excel_summary_two_sheets :
  fst (handle_excel_file plain_workbook_env "/up/book.xlsx" workbook_world)
  = Ok ("Sheet 'Totals' has 2 rows and 2 columns. Columns: region, total. First few rows:"
          +:+ nl +:+ "north 10" +:+ nl +:+ nl
          +:+ "Sheet 'Cities' has 1 rows and 1 columns. Columns: city. First few rows:"
          +:+ nl +:+ "Oslo").
Proof. vm_compute. reflexivity. Qed.

(** [X12] A column label that is not a string turns the whole summary
    into an error text.  Joining the labels raises [TypeError] at the
    first such label, and the last clause of the handler answers "Error
    processing CSV: ..." or "Error processing Excel file: ..." with the
    position and the type of that label; the reports of the sheets
    before it are dropped. *)
Theorem non_string_label_fails_summary (env : Env) (path : string)
        (bytes : list byte) (w : world) :
  files w !! path = Some bytes ->
  (forall df good ty rest n,
      parse_csv env None bytes = inr df ->
      df_columns df = good ++ LOther ty :: rest ->
      forallb is_str good = true ->
      handle_csv_file env path n w
      = (Ok ("Error processing CSV: " +:+ join_error (length good) ty), w))
  /\ (forall before sheet after good ty rest,
        parse_excel env None bytes = inr (before ++ sheet :: after) ->
        forallb (fun sheet => all_str_labels (snd sheet)) before = true ->
        df_columns (snd sheet) = good ++ LOther ty :: rest ->
        forallb is_str good = true ->
        handle_excel_file env path w
        = (Ok ("Error processing Excel file: " +:+ join_error (length good) ty), w)).
Proof.
  intros Hfile. split.
  - intros df good ty rest n Hparse Hcols Hgood.
    rewrite (handle_csv_file_read env path n bytes df w Hfile Hparse).
    rewrite Hcols, (join_labels_from_other good ty rest 0 Hgood). reflexivity.
  - intros before sheet after good ty rest Hparse Hbefore Hcols Hgood.
    rewrite (handle_excel_file_read env path bytes _ w Hfile Hparse).
    rewrite (sheet_reports_other before sheet after
               (mkExn TypeError (join_error (length good) ty)) w Hbefore).
    + reflexivity.
    + rewrite Hcols. apply (join_labels_from_other good ty rest 0 Hgood).
Qed.

Lemma non_string_label_fails_summary_witness :
  handle_excel_file workbook_env "/up/book.xlsx" workbook_world
  = (Ok "Error processing Excel file: sequence item 1: expected str instance, int found",
     workbook_world).
Proof.
  apply (proj2 (non_string_label_fails_summary workbook_env "/up/book.xlsx"
                  [x50; x4b; x03; x04]%byte workbook_world eq_refl)
               [("Totals", mkDataFrame 2 [LStr "region"; LStr "total"] (fun _ _ => "north 10"))]
               ("Years", mkDataFrame 2 [LStr "city"; LOther "int"] (fun _ _ => "Oslo 7"))
               [] [LStr "city"] "int" []).
  - reflexivity.
  - reflexivity.
  - reflexivity.
  - reflexivity.
Defined.

Lemma handleMarkdownFile_read (env : Env) (md_path : string) (bytes : list byte)
      (w : world) :
  files w !! md_path = Some bytes ->
  handleMarkdownFile env md_path w = (Ok (markdown_text (decode_text env bytes)), w).
Proof.
  intros Hfile.
  unfold handleMarkdownFile, try_except, bind at 1, read_file. rewrite Hfile.
  unfold bind, await, lift, markdown_text.
  destruct (decode_text env bytes) as [e | text]; [| reflexivity].
  unfold raise.
  destruct (isinstance (exn_cls e) FileNotFoundError); [reflexivity |].
  destruct (isinstance (exn_cls e) OSError); reflexivity.
Qed.

(** [X13] A Markdown file (extension .md, in any case) that exists is
    summarized by its whole decoded text after the line "Markdown file
    content:".  When decoding raises an exception that is no [OSError],
    the summary is "An unexpected error occurred: " and the text of the
    exception. *)
Theorem markdown_file_summary (env : Env) (depth : nat) (file_path : string)
        (bytes : list byte) (w : world) :
  lower (snd (OsPath.splitext file_path)) = ".md" ->
  files w !! file_path = Some bytes ->
  (forall text,
      decode_text env bytes = inr text ->
      collect_file_data env (S depth) file_path w
      = (Ok ("Markdown file content:" +:+ nl +:+ text), w))
  /\ (forall e,
        decode_text env bytes = inl e ->
        isinstance (exn_cls e) OSError = false ->
        collect_file_data env (S depth) file_path w
        = (Ok ("An unexpected error occurred: " +:+ str_exn e), w)).
Proof.
  intros Hext Hfile.
  assert (Hrun : collect_file_data env (S depth) file_path w
                 = (Ok (markdown_text (decode_text env bytes)), w)).
  { rewrite (collect_file_data_by_type env depth file_path w "md").
    - apply handleMarkdownFile_read. exact Hfile.
    - unfold identify_file_type. rewrite Hext. reflexivity. }
  split.
  - intros text Htext. rewrite Hrun, Htext. reflexivity.
  - intros e He Hos. rewrite Hrun, He. unfold markdown_text.
    destruct (isinstance (exn_cls e) FileNotFoundError) eqn:Hfnf.
    + destruct (exn_cls e); discriminate.
    + rewrite Hos. reflexivity.
Qed.

Lemma markdown_file_summary_witness :
  collect_file_data env0 1 "/up/README.MD" readme_world
  = (Ok ("Markdown file content:" +:+ nl +:+ "# hi"), readme_world).
Proof.
  destruct (markdown_file_summary env0 0 "/up/README.MD" [x23; x20; x68; x69]%byte
              readme_world) as [Htext _].
  - reflexivity.
  - reflexivity.
  - apply Htext. reflexivity.
Defined.

(** [X14] The extension alone chooses the summarizer.  For a path
    whose lower-cased extension is .zip, .csv, .xlsx or .xls, or .md,
    [collect_file_data] is the archive handler, the CSV handler with five
    preview rows, the spreadsheet handler or the Markdown handler on that
    path; the content is not probed first. *)
Theorem summary_handler_follows_extension (env : Env) (depth : nat)
        (file_path : string) (w : world) :
  let extension := lower (snd (OsPath.splitext file_path)) in
  (extension = ".zip" ->
   collect_file_data env (S depth) file_path w
   = handle_zip_file env (collect_file_data env depth) file_path w)
  /\ (extension = ".csv" ->
      collect_file_data env (S depth) file_path w = handle_csv_file env file_path 5 w)
  /\ (extension = ".xlsx" \/ extension = ".xls" ->
      collect_file_data env (S depth) file_path w = handle_excel_file env file_path w)
  /\ (extension = ".md" ->
      collect_file_data env (S depth) file_path w = handleMarkdownFile env file_path w).
Proof.
  cbv zeta.
  assert (Hid : forall extension file_type,
             lower (snd (OsPath.splitext file_path)) = extension ->
             extension_map !! extension = Some file_type ->
             identify_file_type env file_path w = (Ok file_type, w)).
  { intros extension file_type Hext Hmap. unfold identify_file_type.
    rewrite Hext, Hmap. reflexivity. }
  split; [| split; [| split]].
  - intros Hext.
    rewrite (collect_file_data_by_type env depth file_path w "zip"); [reflexivity |].
    apply (Hid ".zip"); [exact Hext | reflexivity].
  - intros Hext.
    rewrite (collect_file_data_by_type env depth file_path w "csv"); [reflexivity |].
    apply (Hid ".csv"); [exact Hext | reflexivity].
  - intros [Hext | Hext].
    + rewrite (collect_file_data_by_type env depth file_path w "excel"); [reflexivity |].
      apply (Hid ".xlsx"); [exact Hext | reflexivity].
    + rewrite (collect_file_data_by_type env depth file_path w "excel"); [reflexivity |].
      apply (Hid ".xls"); [exact Hext | reflexivity].
  - intros Hext.
    rewrite (collect_file_data_by_type env depth file_path w "md"); [reflexivity |].
    apply (Hid ".md"); [exact Hext | reflexivity].
Qed.

(** ** The archive summary, completed *)

Lemma find_file_entry_none (members : list zip_member) :
  find is_file_entry members = None
  <-> forall member, In member members -> endswith (zm_name member) "/" = true.
Proof.
  split.
  - intros H member Hin. pose proof (find_none _ _ H member Hin) as Hf.
    unfold is_file_entry in Hf. apply negb_false_iff in Hf. exact Hf.
  - intros H. destruct (find is_file_entry members) as [member |] eqn:E; [| reflexivity].
    apply find_some in E. destruct E as [Hin Hf].
    unfold is_file_entry in Hf. rewrite (H member Hin) in Hf. discriminate Hf.
Qed.

Lemma handle_zip_file_missing (env : Env) (collect : string -> M string)
      (zip_path : string) (w : world) :
  files w !! zip_path = None ->
  handle_zip_file env collect zip_path w
  = (Ok ("Error processing ZIP file: " +:+ str_exn (no_such_file zip_path)), w).
Proof.
  intros Hfile. unfold handle_zip_file, try_except, bind, read_file.
  rewrite Hfile. reflexivity.
Qed.

Lemma handle_zip_file_unreadable (env : Env) (collect : string -> M string)
      (zip_path : string) (bytes : list byte) (e : exn) (w : world) :
  files w !! zip_path = Some bytes ->
  zip_namelist env bytes = inl e ->
  handle_zip_file env collect zip_path w
  = (Ok ("Error processing ZIP file: " +:+ str_exn e), w).
Proof.
  intros Hfile Hzip. unfold handle_zip_file, try_except, bind, read_file, lift.
  rewrite Hfile, Hzip. reflexivity.
Qed.

(** [X15] The summary of an archive is the empty string or one error
    text, and is the same whatever function is handed in for the nested
    files, which is never called.  A missing file, and any exception of
    opening or listing the archive (as [zipfile.ZipFile] raises on the
    aiofiles handle of line 100), gives "Error processing ZIP file: "
    followed by the text of the exception.  The summary can be empty
    only if the archive was listed and held nothing but directory
    entries. *)
Theorem archive_summary_is_empty_or_error (env : Env) (zip_path : string) (w : world) :
  exists summary,
    (forall collect, handle_zip_file env collect zip_path w = (Ok summary, w))
    /\ (summary = EmptyString
        \/ exists msg, summary = "Error processing ZIP file: " +:+ msg)
    /\ (files w !! zip_path = None ->
        summary = "Error processing ZIP file: " +:+ str_exn (no_such_file zip_path))
    /\ (forall bytes e,
          files w !! zip_path = Some bytes ->
          zip_namelist env bytes = inl e ->
          summary = "Error processing ZIP file: " +:+ str_exn e)
    /\ (summary = EmptyString ->
        exists bytes members,
          files w !! zip_path = Some bytes
          /\ zip_namelist env bytes = inr members
          /\ forall member, In member members -> endswith (zm_name member) "/" = true).
Proof.
  destruct (files w !! zip_path) as [bytes |] eqn:Hfile.
  - destruct (zip_namelist env bytes) as [e | members] eqn:Hzip.
    + exists ("Error processing ZIP file: " +:+ str_exn e).
      split; [intros collect; apply (handle_zip_file_unreadable _ _ _ bytes); assumption |].
      split; [right; eexists; reflexivity |].
      split; [intros H; discriminate H |].
      split.
      * intros bytes' e' Hb He. injection Hb as <-. rewrite Hzip in He.
        injection He as <-. reflexivity.
      * intros H. simpl in H. discriminate H.
    + destruct (find is_file_entry members) as [member |] eqn:Hfind.
      * exists ("Error processing ZIP file: "
                  +:+ match zm_read member with
                      | inl e => str_exn e
                      | inr _ => str_exn await_bytes_error
                      end).
        split.
        { intros collect.
          rewrite (handle_zip_file_summary env collect zip_path bytes members w Hfile Hzip).
          rewrite Hfind. reflexivity. }
        split; [right; eexists; reflexivity |].
        split; [intros H; discriminate H |].
        split.
        -- intros bytes' e' Hb He. injection Hb as <-. rewrite Hzip in He. discriminate He.
        -- intros H. simpl in H. discriminate H.
      * exists EmptyString.
        split.
        { intros collect.
          rewrite (handle_zip_file_summary env collect zip_path bytes members w Hfile Hzip).
          rewrite Hfind. reflexivity. }
        split; [left; reflexivity |].
        split; [intros H; discriminate H |].
        split.
        -- intros bytes' e' Hb He. injection Hb as <-. rewrite Hzip in He. discriminate He.
        -- intros _. exists bytes, members.
           split; [reflexivity |]. split; [exact Hzip |].
           apply find_file_entry_none. exact Hfind.
  - exists ("Error processing ZIP file: " +:+ str_exn (no_such_file zip_path)).
    split; [intros collect; apply handle_zip_file_missing; exact Hfile |].
    split; [right; eexists; reflexivity |].
    split; [reflexivity |].
    split.
    + intros bytes e H. discriminate H.
    + intros H. simpl in H. discriminate H.
Qed.

(** The program's own archive: [zipfile.ZipFile] is handed the aiofiles
    handle, whose [seek] and [read] return coroutines, and raises. *)
Example archive_on_async_handle :
  let env := stub_env (inl (mkExn TypeError "object of type 'coroutine' has no len()"))
                      (inr (ok_response "42")) in
  forall collect,
    handle_zip_file env collect "/up/a.zip" archive_world
    = (Ok "Error processing ZIP file: object of type 'coroutine' has no len()",
       archive_world).
Proof. intros env collect. reflexivity. Qed.

(** ** Unsupported files *)

Lemma handle_csv_file_head (env : Env) (path : string) (n : nat) (w : world) :
  exists s, handle_csv_file env path n w = (Ok s, w) /\ starts_with "U" s = false.
Proof.
  unfold handle_csv_file, try_except, bind at 1, pd_read_csv, bind at 1, read_file.
  destruct (files w !! path) as [bytes |].
  - unfold lift at 1. destruct (parse_csv env None bytes) as [e | df].
    + unfold raise.
      destruct (isinstance (exn_cls e) FileNotFoundError);
        [| destruct (isinstance (exn_cls e) EmptyDataError);
           [| destruct (isinstance (exn_cls e) ParserError)]];
        eexists; (split; [reflexivity | reflexivity]).
    + unfold ret at 1. unfold bind. rewrite join_columns_run.
      destruct (join_labels_from 0 (df_columns df)) as [e | l].
      * destruct (isinstance (exn_cls e) FileNotFoundError);
          [| destruct (isinstance (exn_cls e) EmptyDataError);
             [| destruct (isinstance (exn_cls e) ParserError)]];
          eexists; (split; [reflexivity | reflexivity]).
      * eexists. split; reflexivity.
  - cbn. eexists. split; reflexivity.
Qed.

Lemma handleMarkdownFile_head (env : Env) (path : string) (w : world) :
  exists s, handleMarkdownFile env path w = (Ok s, w) /\ starts_with "U" s = false.
Proof.
  destruct (files w !! path) as [bytes |] eqn:Hfile.
  - rewrite (handleMarkdownFile_read env path bytes w Hfile).
    eexists. split; [reflexivity |].
    unfold markdown_text. destruct (decode_text env bytes) as [e | text]; [| reflexivity].
    destruct (isinstance (exn_cls e) FileNotFoundError); [reflexivity |].
    destruct (isinstance (exn_cls e) OSError); reflexivity.
  - rewrite (handleMarkdownFile_not_found env path w Hfile).
    eexists. split; reflexivity.
Qed.

Lemma join_sheet_summaries_head (sheets : list (string * DataFrame)) :
  starts_with "U" (join (nl +:+ nl) (map sheet_summary sheets)) = false.
Proof.
  destruct sheets as [| sheet [| sheet' rest]]; reflexivity.
Qed.

Lemma handle_excel_file_head (env : Env) (path : string) (w : world) :
  exists s, handle_excel_file env path w = (Ok s, w) /\ starts_with "U" s = false.
Proof.
  destruct (files w !! path) as [bytes |] eqn:Hfile.
  - destruct (parse_excel env None bytes) as [e | sheets] eqn:Hparse.
    + unfold handle_excel_file, try_except, bind, pd_read_excel, bind, read_file, lift.
      rewrite Hfile, Hparse. unfold raise.
      destruct (isinstance (exn_cls e) FileNotFoundError);
        [| destruct (isinstance (exn_cls e) EmptyDataError)];
        eexists; (split; reflexivity).
    + rewrite (handle_excel_file_read env path bytes sheets w Hfile Hparse).
      destruct (quiet_sheet_reports sheets w) as [r [E Hr]]. rewrite E. cbn [fst].
      destruct r as [info | e |]; [ | | congruence].
      * apply sheet_reports_ok in E. subst info.
        eexists. split; [reflexivity | apply join_sheet_summaries_head].
      * eexists. split; reflexivity.
  - unfold handle_excel_file, try_except, bind, pd_read_excel, bind, read_file.
    rewrite Hfile. cbn. eexists. split; reflexivity.
Qed.

Lemma handle_zip_file_head (env : Env) (collect : string -> M string)
      (path : string) (w : world) :
  exists s, handle_zip_file env collect path w = (Ok s, w) /\ starts_with "U" s = false.
Proof.
  destruct (files w !! path) as [bytes |] eqn:Hfile.
  - destruct (zip_namelist env bytes) as [e | members] eqn:Hzip.
    + rewrite (handle_zip_file_unreadable env collect path bytes e w Hfile Hzip).
      eexists. split; reflexivity.
    + rewrite (handle_zip_file_summary env collect path bytes members w Hfile Hzip).
      eexists. split; [reflexivity |].
      destruct (find is_file_entry members); reflexivity.
  - rewrite (handle_zip_file_missing env collect path w Hfile).
    eexists. split; reflexivity.
Qed.

(** [X16] [collect_file_data] answers "Unsupported file type" exactly
    when the classifier answers [unknown]: no handler produces that
    text. *)
Theorem unsupported_exactly_when_unknown (env : Env) (depth : nat)
        (file_path : string) (w : world) :
  fst (collect_file_data env (S depth) file_path w) = Ok "Unsupported file type"
  <-> fst (identify_file_type env file_path w) = Ok "unknown".
Proof.
  destruct (identify_file_type_range env file_path w) as [file_type [Hid Hin]].
  rewrite (collect_file_data_by_type env depth file_path w file_type Hid), Hid.
  cbn [fst In] in *.
  destruct Hin as [<- | [<- | [<- | [<- | [<- | []]]]]].
  - destruct (handle_zip_file_head env (collect_file_data env depth) file_path w)
      as [s [Hs Hhead]].
    change (processing_functions !! "zip") with (Some Handle_zip_file).
    rewrite Hs. cbn [fst].
    split; [intros H; injection H as ->; discriminate Hhead | intros H; discriminate H].
  - destruct (handle_csv_file_head env file_path 5 w) as [s [Hs Hhead]].
    change (processing_functions !! "csv") with (Some Handle_csv_file).
    rewrite Hs. cbn [fst].
    split; [intros H; injection H as ->; discriminate Hhead | intros H; discriminate H].
  - destruct (handle_excel_file_head env file_path w) as [s [Hs Hhead]].
    change (processing_functions !! "excel") with (Some Handle_excel_file).
    rewrite Hs. cbn [fst].
    split; [intros H; injection H as ->; discriminate Hhead | intros H; discriminate H].
  - destruct (handleMarkdownFile_head env file_path w) as [s [Hs Hhead]].
    change (processing_functions !! "md") with (Some HandleMarkdownFile).
    rewrite Hs. cbn [fst].
    split; [intros H; injection H as ->; discriminate Hhead | intros H; discriminate H].
  - change (processing_functions !! "unknown") with (@None handler).
    cbn [fst]. split; reflexivity.
Qed.

(** ** Local commands, outcome by outcome *)

Lemma length_drop (n : nat) (s : string) :
  String.length (drop n s) = (String.length s - n)%nat.
Proof.
  revert s. induction n as [| n IH]; intros s; [cbn [drop]; lia |].
  destruct s as [| c s]; [reflexivity |].
  cbn [drop String.length]. apply IH.
Qed.

Lemma length_take (n : nat) (s : string) : (String.length (take n s) <= n)%nat.
Proof.
  revert s. induction n as [| n IH]; intros s; [cbn [take String.length]; lia |].
  destruct s as [| c s]; [cbn [take String.length]; lia |].
  cbn [take String.length]. specialize (IH s). lia.
Qed.

(** A prefix of a part of [s] taken from its left is a prefix of [s]. *)
Lemma startswith_take (p : string) :
  forall k s, startswith (take k s) p = true -> startswith s p = true.
Proof.
  induction p as [| b p IH]; intros k s H; [destruct s; reflexivity |].
  destruct k as [| k]; [discriminate H |].
  destruct s as [| a s]; [discriminate H |].
  cbn [take startswith] in *.
  apply andb_true_iff in H. destruct H as [Hab Hrest].
  rewrite Hab. cbn [andb]. apply (IH k s Hrest).
Qed.

(** Every white space character takes at least one byte. *)
Lemma whitespace_not_empty (ws : string) :
  In ws whitespace -> (1 <= String.length ws)%nat.
Proof.
  assert (H : forallb (fun ws => (1 <=? String.length ws)%nat) whitespace = true)
    by (vm_compute; reflexivity).
  rewrite forallb_forall in H. intros Hin. apply Nat.leb_le. apply (H ws Hin).
Qed.

Lemma lstrip_from_done (fuel : nat) :
  forall s, (String.length s <= fuel)%nat -> leading_space (lstrip_from fuel s) = None.
Proof.
  induction fuel as [| fuel IH]; intros s Hlen.
  - destruct s as [| c s]; [reflexivity | cbn [String.length] in Hlen; lia].
  - cbn [lstrip_from]. destruct (leading_space s) as [ws |] eqn:Hws; [| exact Hws].
    apply find_some in Hws. destruct Hws as [Hin Hstart].
    apply IH. rewrite length_drop.
    pose proof (whitespace_not_empty ws Hin). lia.
Qed.

Lemma rstrip_from_done (fuel : nat) :
  forall s, (String.length s <= fuel)%nat -> trailing_space (rstrip_from fuel s) = None.
Proof.
  induction fuel as [| fuel IH]; intros s Hlen.
  - destruct s as [| c s]; [reflexivity | cbn [String.length] in Hlen; lia].
  - cbn [rstrip_from]. destruct (trailing_space s) as [ws |] eqn:Hws; [| exact Hws].
    apply find_some in Hws. destruct Hws as [Hin Hend].
    apply IH.
    pose proof (length_take (String.length s - String.length ws) s).
    pose proof (whitespace_not_empty ws Hin). lia.
Qed.

(** Trimming on the right brings no white space to the left end. *)
Lemma rstrip_from_leading (fuel : nat) :
  forall s, leading_space s = None -> leading_space (rstrip_from fuel s) = None.
Proof.
  induction fuel as [| fuel IH]; intros s Hnone; [exact Hnone |].
  cbn [rstrip_from]. destruct (trailing_space s) as [ws |]; [| exact Hnone].
  apply IH.
  destruct (leading_space (take (String.length s - String.length ws) s))
    as [ws' |] eqn:Hws'; [| reflexivity].
  apply find_some in Hws'. destruct Hws' as [Hin Hstart].
  apply startswith_take in Hstart.
  pose proof (find_none _ _ Hnone ws' Hin) as Hfalse. cbv beta in Hfalse. congruence.
Qed.

(** [s.strip()] leaves no white space character at either end. *)
Lemma strip_trimmed (s : string) : trimmed (strip s).
Proof.
  unfold strip, rstrip, lstrip. split.
  - apply rstrip_from_leading. apply lstrip_from_done. lia.
  - apply rstrip_from_done. lia.
Qed.

(** White space beyond ASCII: a no-break space, an em space and a line
    separator go, a blank inside the text stays. *)
Example strip_unicode_spaces :
  strip (utf8 0xA0 +:+ nl +:+ "a b" +:+ utf8 0x2003 +:+ utf8 0x2028 +:+ " ") = "a b".
Proof. vm_compute. reflexivity. Qed.

Example strip_keeps_other_bytes :
  strip (utf8 0xE9 +:+ "t" +:+ utf8 0xE9) = utf8 0xE9 +:+ "t" +:+ utf8 0xE9.
Proof. vm_compute. reflexivity. Qed.

Lemma run_command_after_shell (env : Env) (command : string) (cwd : option string)
      (w : world) :
  fst (run_command env command cwd w)
  = match shell env command cwd (files w) with
    | inl e =>
        Ok (if isinstance (exn_cls e) AsyncTimeoutError
            then "Error: Command execution timed out."
            else "Error executing command: " +:+ str_exn e)
    | inr (returncode, stdout, stderr) =>
        match bytes_decode env (if (returncode =? 0)%Z then stdout else stderr) with
        | inl e =>
            Ok (if isinstance (exn_cls e) AsyncTimeoutError
                then "Error: Command execution timed out."
                else "Error executing command: " +:+ str_exn e)
        | inr text =>
            Ok (if (returncode =? 0)%Z then strip text
                else "Error: Command failed with exit code " +:+ of_Z returncode
                       +:+ ". Output: " +:+ strip text)
        end
    end.
Proof.
  unfold run_command, try_except, bind at 1, log at 1.
  unfold bind at 1, get_world at 1. unfold bind at 1, lift at 1. cbn [files].
  destruct (shell env command cwd (files w)) as [e | [[returncode stdout] stderr]].
  - unfold raise. destruct (isinstance (exn_cls e) AsyncTimeoutError); reflexivity.
  - unfold ret at 1.
    destruct (returncode =? 0)%Z; cbn [negb]; unfold bind, lift.
    + destruct (bytes_decode env stdout) as [e | text]; [| reflexivity].
      unfold raise. destruct (isinstance (exn_cls e) AsyncTimeoutError); reflexivity.
    + destruct (bytes_decode env stderr) as [e | text]; [| reflexivity].
      unfold raise. destruct (isinstance (exn_cls e) AsyncTimeoutError); reflexivity.
Qed.

(** [X17] [run_command], outcome by outcome.  The one event is the
    start of the command, whatever happens next.  Exit code 0 gives the
    decoded standard output with no white space character (of ASCII or
    beyond) left at either end; another exit code gives "Error: Command
    failed with exit code N. Output: " and the decoded, trimmed standard
    error; a timeout gives "Error: Command execution timed out."; any
    other exception, of the subprocess or of decoding the stream that is
    read, gives "Error executing command: " and its text.  Nothing is
    raised. *)
Theorem run_command_outcomes (env : Env) (command : string) (cwd : option string)
        (w : world) :
  snd (run_command env command cwd w) = logged w (EvSubprocess command cwd)
  /\ (forall stdout stderr text,
        shell env command cwd (files w) = inr (0%Z, stdout, stderr) ->
        bytes_decode env stdout = inr text ->
        fst (run_command env command cwd w) = Ok (strip text)
        /\ trimmed (strip text))
  /\ (forall returncode stdout stderr text,
        shell env command cwd (files w) = inr (returncode, stdout, stderr) ->
        returncode <> 0%Z ->
        bytes_decode env stderr = inr text ->
        fst (run_command env command cwd w)
        = Ok ("Error: Command failed with exit code " +:+ of_Z returncode
                +:+ ". Output: " +:+ strip text))
  /\ (forall returncode stdout stderr e,
        shell env command cwd (files w) = inr (returncode, stdout, stderr) ->
        bytes_decode env (if (returncode =? 0)%Z then stdout else stderr) = inl e ->
        fst (run_command env command cwd w)
        = Ok (if isinstance (exn_cls e) AsyncTimeoutError
              then "Error: Command execution timed out."
              else "Error executing command: " +:+ str_exn e))
  /\ (forall e,
        shell env command cwd (files w) = inl e ->
        fst (run_command env command cwd w)
        = Ok (if isinstance (exn_cls e) AsyncTimeoutError
              then "Error: Command execution timed out."
              else "Error executing command: " +:+ str_exn e)).
Proof.
  split; [| split; [| split; [| split]]].
  - destruct (run_command_returns env command cwd w) as [out ->]. reflexivity.
  - intros stdout stderr text Hshell Hdecode.
    split; [| apply strip_trimmed].
    rewrite run_command_after_shell, Hshell. cbn [Z.eqb]. rewrite Hdecode. reflexivity.
  - intros returncode stdout stderr text Hshell Hcode Hdecode.
    rewrite run_command_after_shell, Hshell.
    apply Z.eqb_neq in Hcode. rewrite Hcode, Hdecode. reflexivity.
  - intros returncode stdout stderr e Hshell Hdecode.
    rewrite run_command_after_shell, Hshell, Hdecode. reflexivity.
  - intros e Hshell.
    rewrite run_command_after_shell, Hshell. reflexivity.
Qed.

Example run_command_version :
  run_command env0 "code -s" None empty_world
  = (Ok "Version: Code 1.96.2", logged empty_world (EvSubprocess "code -s" None)).
Proof. vm_compute. reflexivity. Qed.

(** ** Remote delegation, completed *)

Lemma raise_for_status_ok (response : http_response) (w : world) :
  (status_code response < 400)%Z -> raise_for_status response w = (Ok tt, w).
Proof.
  intros Hcode. unfold raise_for_status.
  replace ((400 <=? status_code response) && (status_code response <? 500))%Z
    with false by (symmetry; apply andb_false_iff; left; lia).
  replace ((500 <=? status_code response) && (status_code response <? 600))%Z
    with false by (symmetry; apply andb_false_iff; left; lia).
  reflexivity.
Qed.

(** A well-formed answer of the model: the trimmed text of the first part
    of the first candidate. *)
Lemma generate_response_text (env : Env) (question : string) (file_info : option string)
      (w : world) (response : http_response)
      (fields candidate content_fields part : list (string * json))
      (candidates parts : list json) (text : string) :
  http_post env system_prompt (message_prompt question file_info) = inr response ->
  (status_code response < 400)%Z ->
  resp_json response = Some (JObj fields) ->
  Py.dict_lookup "candidates" fields = Some (JArr (JObj candidate :: candidates)) ->
  Py.dict_lookup "content" candidate = Some (JObj content_fields) ->
  Py.dict_lookup "parts" content_fields = Some (JArr (JObj part :: parts)) ->
  Py.dict_lookup "text" part = Some (JStr text) ->
  generate_response env question file_info w
  = (Ok (strip text), logged w (EvHttpPost (message_prompt question file_info))).
Proof.
  intros Hpost Hcode Hjson Hcands Hcontent Hparts Htext.
  unfold generate_response, try_except.
  unfold bind at 1. unfold log at 1.
  fold (logged w (EvHttpPost (message_prompt question file_info))).
  unfold bind at 1. rewrite Hpost. unfold lift at 1, ret at 1.
  unfold bind at 1. rewrite (raise_for_status_ok response _ Hcode).
  unfold bind at 1, response_json. rewrite Hjson. unfold ret at 1.
  unfold bind at 1, Py.get, lift at 1. rewrite Hcands. unfold ret at 1.
  cbn [Py.truthy].
  unfold bind at 1. cbn [Py.getitem0 lift]. unfold ret at 1.
  unfold bind at 1. cbn [Py.getitem]. rewrite Hcontent. cbn [lift]. unfold ret at 1.
  unfold bind at 1. cbn [Py.getitem]. rewrite Hparts. cbn [lift]. unfold ret at 1.
  unfold bind at 1. cbn [Py.getitem0 lift]. unfold ret at 1.
  unfold bind at 1. cbn [Py.getitem]. rewrite Htext. cbn [lift]. unfold ret at 1.
  reflexivity.
Qed.

(** [X18] A request without attachment whose model response is well
    formed (status below 400, a JSON object whose first candidate has a
    content with a first part carrying a text) is answered with that
    text, trimmed at both ends; further candidates and parts are ignored,
    and the one event is the request to the model. *)
Theorem model_text_is_the_answer (env : Env) (depth : nat) (question : string)
        (w : world) (response : http_response)
        (fields candidate content_fields part : list (string * json))
        (candidates parts : list json) (text : string) :
  http_post env system_prompt (message_prompt question None) = inr response ->
  (status_code response < 400)%Z ->
  resp_json response = Some (JObj fields) ->
  Py.dict_lookup "candidates" fields = Some (JArr (JObj candidate :: candidates)) ->
  Py.dict_lookup "content" candidate = Some (JObj content_fields) ->
  Py.dict_lookup "parts" content_fields = Some (JArr (JObj part :: parts)) ->
  Py.dict_lookup "text" part = Some (JStr text) ->
  answer_question env depth question None w
  = (Ok (mkJSONResponse (strip text)),
     logged w (EvHttpPost (message_prompt question None)))
  /\ trimmed (strip text).
Proof.
  intros Hpost Hcode Hjson Hcands Hcontent Hparts Htext.
  split; [| apply strip_trimmed].
  rewrite answer_question_no_file.
  rewrite (generate_response_text env question None w response fields candidate
             content_fields part candidates parts text
             Hpost Hcode Hjson Hcands Hcontent Hparts Htext).
  reflexivity.
Qed.

Lemma model_text_is_the_answer_witness :
  answer_question padded_answer_env 1 "What is 6 * 7?" None empty_world
  = (Ok (mkJSONResponse "42"),
     logged empty_world (EvHttpPost (message_prompt "What is 6 * 7?" None)))
  /\ trimmed "42".
Proof.
  apply (model_text_is_the_answer padded_answer_env 1 "What is 6 * 7?" empty_world
           (ok_response padded_text)
           [("candidates",
             JArr [JObj [("content",
                          JObj [("parts", JArr [JObj [("text", JStr padded_text)]])])]])]
           [("content", JObj [("parts", JArr [JObj [("text", JStr padded_text)]])])]
           [("parts", JArr [JObj [("text", JStr padded_text)]])]
           [("text", JStr padded_text)]
           [] [] padded_text).
  - reflexivity.
  - reflexivity.
  - reflexivity.
  - reflexivity.
  - reflexivity.
  - reflexivity.
  - reflexivity.
Defined.

(** [X19] [generate_response] sends exactly one request, whatever
    comes of it, and touches neither files nor directories; no exception
    of the requests library leaves it.  The prompt carries the section
    "Attached file information:" exactly when the file information is a
    non-empty string: an empty summary gives the prompt of a request
    without file. *)
Theorem remote_call_posts_once (env : Env) (question : string)
        (file_info : option string) (w : world) :
  snd (generate_response env question file_info w)
    = logged w (EvHttpPost (message_prompt question file_info))
  /\ fst (generate_response env question file_info w) <> OutOfFuel
  /\ (forall e,
        fst (generate_response env question file_info w) = Raise e ->
        isinstance (exn_cls e) RequestException = false)
  /\ message_prompt question (Some EmptyString) = message_prompt question None
  /\ (forall c info,
        message_prompt question (Some (String c info))
        = "Assignment question: " +:+ question +:+ nl +:+ nl
            +:+ "Attached file information:" +:+ nl +:+ String c info +:+ nl
            +:+ "Please provide the exact answer to be entered in the assignment.").
Proof.
  destruct (generate_response_world env question file_info w) as [r [Hrun Hr]].
  split; [rewrite Hrun; reflexivity |].
  split; [rewrite Hrun; exact Hr |].
  split; [| split; [reflexivity |]].
  - intros e. unfold generate_response, try_except.
    match goal with
    | |- context [let (_, _) := ?body w in _] => destruct (body w) as [[a | e0 |] w1]
    end; cbn [fst]; try (intros H; discriminate H).
    destruct (isinstance (exn_cls e0) RequestException) eqn:Hcls; cbn [fst].
    + intros H. discriminate H.
    + intros H. injection H as <-. exact Hcls.
  - intros c info. unfold message_prompt. rewrite !str_append_assoc. reflexivity.
Qed.

(** ** The upload branch, step by step *)

Lemma filter_other_dirs (temp_dir : string) (l : list string) :
  ~ In temp_dir l -> filter (fun d => negb (String.eqb temp_dir d)) l = l.
Proof.
  induction l as [| d l IH]; intros H; [reflexivity |].
  rewrite filter_cons_True.
  - rewrite IH; [reflexivity |]. intros Hin. apply H. right. exact Hin.
  - destruct (String.eqb temp_dir d) eqn:E; [| exact I].
    apply String.eqb_eq in E. subst d. exfalso. apply H. left. reflexivity.
Qed.

(** What the dispatch adds to the trace: nothing, or the one run of
    [code -s]. *)
Lemma local_answer_events (env : Env) (question file_type file_path temp_dir : string)
      (w : world) :
  exists (a : option string) (events : list event),
    local_answer env question file_type file_path temp_dir w
    = (Ok a, mkWorld (files w) (dirs w) (trace w ++ events))
    /\ (events = [] \/ events = [EvSubprocess "code -s" None]).
Proof.
  destruct (local_answer_cases env question file_type file_path temp_dir w)
    as [H | [[out H] | H]]; rewrite H.
  - destruct (compute_sha256_returns file_path w) as [a ->].
    exists (Some a), []. rewrite app_nil_r. destruct w. split; [reflexivity | left; reflexivity].
  - exists (Some out), [EvSubprocess "code -s" None]. split; [reflexivity | right; reflexivity].
  - exists None, []. rewrite app_nil_r. destruct w. split; [reflexivity | left; reflexivity].
Qed.

(** An accepted upload, step by step: classification and summary on the
    saved file, then the dispatch, then the cleanup. *)
Lemma process_upload_steps (env : Env) (depth : nat) (question : string)
      (file : UploadFile) (w : world) :
  (Z.of_nat (length (content file)) <= MAX_FILE_SIZE)%Z ->
  exists file_type file_info,
    identify_file_type env (upload_path env file) (saved_world env file w)
    = (Ok file_type, saved_world env file w)
    /\ collect_file_data env (S depth) (upload_path env file) (saved_world env file w)
       = (Ok file_info, saved_world env file w)
    /\ process_upload env (S depth) question file w
       = (outcome_map (fun a => (a, Some file_info))
            (fst (local_answer env question file_type (upload_path env file)
                               (mkdtemp env) (saved_world env file w))),
          cleaned (upload_path env file) (mkdtemp env)
            (snd (local_answer env question file_type (upload_path env file)
                               (mkdtemp env) (saved_world env file w)))).
Proof.
  intros Hsize. rewrite process_upload_run.
  replace (Z.of_nat (length (content file)) >? MAX_FILE_SIZE)%Z with false
    by (symmetry; rewrite Z.gtb_ltb; apply Z.ltb_ge; exact Hsize).
  set (w3 := saved_world env file w).
  destruct (identify_file_type_returns env (upload_path env file) w3) as [file_type Hid].
  destruct (collect_file_data_returns env depth (upload_path env file) w3)
    as [file_info Hcol].
  exists file_type, file_info. split; [exact Hid |]. split; [exact Hcol |].
  destruct (local_answer_events env question file_type (upload_path env file)
                                (mkdtemp env) w3)
    as [a [events [Hlocal _]]].
  rewrite Hlocal. cbn [fst snd outcome_map].
  apply (try_finally_done _ _ w3 (mkWorld (files w3) (dirs w3) (trace w3 ++ events))).
  - unfold classify_and_answer.
    rewrite (bind_ok _ _ w3 w3 file_type) by exact Hid.
    rewrite (bind_ok _ _ w3 w3 file_info) by exact Hcol.
    unfold bind. rewrite Hlocal. reflexivity.
  - discriminate.
  - apply (cleanup_upload_run _ _ (content file)).
    + cbn [files w3 saved_world]. apply lookup_insert_eq.
    + cbn [dirs w3 saved_world existsb]. rewrite String.eqb_refl. reflexivity.
Qed.

(** The file system after the upload branch, whatever its outcome. *)
Lemma process_upload_file_system (env : Env) (depth : nat) (question : string)
      (file : UploadFile) (w : world) :
  exists events,
    snd (process_upload env (S depth) question file w)
    = cleaned (upload_path env file) (mkdtemp env)
        (mkWorld (files (saved_world env file w)) (dirs (saved_world env file w))
                 (trace (saved_world env file w) ++ events))
    /\ (events = [] \/ events = [EvSubprocess "code -s" None]).
Proof.
  destruct (Z_le_gt_dec (Z.of_nat (length (content file))) MAX_FILE_SIZE) as [Hle | Hgt].
  - destruct (process_upload_steps env depth question file w Hle)
      as [file_type [file_info [_ [_ ->]]]].
    destruct (local_answer_events env question file_type (upload_path env file)
                                  (mkdtemp env) (saved_world env file w))
      as [a [events [-> Hev]]].
    exists events. split; [reflexivity | exact Hev].
  - rewrite process_upload_run.
    replace (Z.of_nat (length (content file)) >? MAX_FILE_SIZE)%Z with true
      by (symmetry; apply Z.gtb_lt; lia).
    exists []. rewrite app_nil_r. split; [| left; reflexivity].
    cbn [snd]. destruct (saved_world env file w). reflexivity.
Qed.

(** [X20] The upload branch (lines 287-319) cleans up after itself,
    whether it returns or raises: afterwards the saved upload is gone and
    the temporary directory is removed, so that with a fresh directory
    and path the files and directories are those from before.  Its events
    are the creation of the directory, the read of the upload, the save,
    at most one run of [code -s], and the two removals, in this order. *)
Theorem upload_branch_cleans_up (env : Env) (depth : nat) (question : string)
        (file : UploadFile) (w : world) :
  let run := process_upload env (S depth) question file w in
  files (snd run) = delete (upload_path env file) (files w)
  /\ dirs (snd run) = filter (fun d => negb (String.eqb (mkdtemp env) d)) (dirs w)
  /\ (files w !! upload_path env file = None -> files (snd run) = files w)
  /\ (~ In (mkdtemp env) (dirs w) -> dirs (snd run) = dirs w)
  /\ exists events,
       trace (snd run)
       = trace w
           ++ [EvMkdtemp (mkdtemp env); EvUploadRead (filename file);
               EvWrite (upload_path env file) (length (content file))]
           ++ events
           ++ [EvRemove (upload_path env file); EvRmdir (mkdtemp env)]
       /\ (events = [] \/ events = [EvSubprocess "code -s" None]).
Proof.
  cbv zeta.
  destruct (process_upload_file_system env depth question file w) as [events [Hw Hev]].
  rewrite Hw. cbn [files dirs trace cleaned saved_world].
  assert (Hfiles : delete (upload_path env file)
                          (<[upload_path env file := content file]> (files w))
                   = delete (upload_path env file) (files w))
    by apply delete_insert_eq.
  assert (Hdirs : filter (fun d => negb (String.eqb (mkdtemp env) d))
                         (mkdtemp env :: dirs w)
                  = filter (fun d => negb (String.eqb (mkdtemp env) d)) (dirs w)).
  { rewrite filter_cons_False; [reflexivity |].
    rewrite String.eqb_refl. intros []. }
  rewrite Hfiles, Hdirs.
  split; [reflexivity |]. split; [reflexivity |].
  split; [intros Hfresh; apply delete_id; exact Hfresh |].
  split; [intros Hfresh; apply filter_other_dirs; exact Hfresh |].
  exists events. split; [| exact Hev].
  rewrite <- !app_assoc. reflexivity.
Qed.

Lemma prettier_rule_false (question file_type : string) :
  sha256sum_rule question file_type = false -> prettier_rule question file_type = false.
Proof.
  intros H. destruct (prettier_rule question file_type) eqn:E; [| reflexivity].
  apply prettier_rule_implies_sha256sum_rule in E. congruence.
Qed.

(** [X21] The third rule of the dispatch, in the upload branch: when
    the first rule does not apply and the lower-cased question contains
    "code -s", the answer is what [run_command] yields for [code -s],
    run without working directory while the upload is still saved, and
    the summary of the file is kept beside it. *)
Theorem upload_branch_runs_code_s (env : Env) (depth : nat) (question : string)
        (file : UploadFile) (file_type : string) (w : world) :
  (Z.of_nat (length (content file)) <= MAX_FILE_SIZE)%Z ->
  fst (identify_file_type env (upload_path env file) (saved_world env file w))
    = Ok file_type ->
  sha256sum_rule question file_type = false ->
  contains (lower question) "code -s" = true ->
  exists out file_info,
    fst (process_upload env (S depth) question file w) = Ok (Some out, Some file_info)
    /\ fst (run_command env "code -s" None (saved_world env file w)) = Ok out
    /\ trace (snd (process_upload env (S depth) question file w))
       = trace w
           ++ [EvMkdtemp (mkdtemp env); EvUploadRead (filename file);
               EvWrite (upload_path env file) (length (content file));
               EvSubprocess "code -s" None;
               EvRemove (upload_path env file); EvRmdir (mkdtemp env)].
Proof.
  intros Hsize Htype Hsha Hcode.
  destruct (process_upload_steps env depth question file w Hsize)
    as [file_type' [file_info [Hid [_ Hrun]]]].
  rewrite Hid in Htype. cbn [fst] in Htype. injection Htype as ->.
  destruct (run_command_returns env "code -s" None (saved_world env file w))
    as [out Hout].
  assert (Hlocal : local_answer env question file_type (upload_path env file)
                                (mkdtemp env) (saved_world env file w)
                   = (Ok (Some out),
                      logged (saved_world env file w) (EvSubprocess "code -s" None))).
  { unfold local_answer.
    fold (sha256sum_rule question file_type). rewrite Hsha.
    fold (prettier_rule question file_type).
    rewrite (prettier_rule_false _ _ Hsha), Hcode.
    unfold bind, await. rewrite Hout. reflexivity. }
  exists out, file_info. rewrite Hrun, Hlocal, Hout. cbn [fst snd outcome_map].
  split; [reflexivity |]. split; [reflexivity |].
  cbn [trace cleaned logged saved_world]. rewrite <- !app_assoc. reflexivity.
Qed.

Lemma upload_branch_runs_code_s_witness :
  exists out file_info,
    fst (process_upload env0 1 "Output of code -s?"
           (mkUpload "data.csv" [x61; x0a]%byte) empty_world)
    = Ok (Some out, Some file_info)
    /\ fst (run_command env0 "code -s" None
              (saved_world env0 (mkUpload "data.csv" [x61; x0a]%byte) empty_world))
       = Ok out
    /\ trace (snd (process_upload env0 1 "Output of code -s?"
                     (mkUpload "data.csv" [x61; x0a]%byte) empty_world))
       = trace empty_world
           ++ [EvMkdtemp "/tmp/tmpq1"; EvUploadRead "data.csv";
               EvWrite "/tmp/tmpq1/data.csv" 2;
               EvSubprocess "code -s" None;
               EvRemove "/tmp/tmpq1/data.csv"; EvRmdir "/tmp/tmpq1"].
Proof.
  apply (upload_branch_runs_code_s env0 0 "Output of code -s?"
           (mkUpload "data.csv" [x61; x0a]%byte) "csv" empty_world).
  - vm_compute. discriminate.
  - reflexivity.
  - reflexivity.
  - reflexivity.
Defined.

(** [X22] When no rule of the dispatch applies (the first rule does
    not, and the question does not mention "code -s"), the upload branch
    leaves the answer unset and hands over the summary
    [collect_file_data] made of the saved file; it starts no command and
    sends no request. *)
Theorem upload_branch_leaves_answer_to_model (env : Env) (depth : nat)
        (question : string) (file : UploadFile) (file_type : string) (w : world) :
  (Z.of_nat (length (content file)) <= MAX_FILE_SIZE)%Z ->
  fst (identify_file_type env (upload_path env file) (saved_world env file w))
    = Ok file_type ->
  sha256sum_rule question file_type = false ->
  contains (lower question) "code -s" = false ->
  exists file_info,
    fst (process_upload env (S depth) question file w) = Ok (None, Some file_info)
    /\ fst (collect_file_data env (S depth) (upload_path env file)
                              (saved_world env file w)) = Ok file_info
    /\ trace (snd (process_upload env (S depth) question file w))
       = trace w
           ++ [EvMkdtemp (mkdtemp env); EvUploadRead (filename file);
               EvWrite (upload_path env file) (length (content file));
               EvRemove (upload_path env file); EvRmdir (mkdtemp env)].
Proof.
  intros Hsize Htype Hsha Hcode.
  destruct (process_upload_steps env depth question file w Hsize)
    as [file_type' [file_info [Hid [Hcol Hrun]]]].
  rewrite Hid in Htype. cbn [fst] in Htype. injection Htype as ->.
  assert (Hlocal : local_answer env question file_type (upload_path env file)
                                (mkdtemp env) (saved_world env file w)
                   = (Ok None, saved_world env file w)).
  { unfold local_answer.
    fold (sha256sum_rule question file_type). rewrite Hsha.
    fold (prettier_rule question file_type).
    rewrite (prettier_rule_false _ _ Hsha), Hcode. reflexivity. }
  exists file_info. rewrite Hrun, Hlocal, Hcol. cbn [fst snd outcome_map].
  split; [reflexivity |]. split; [reflexivity |].
  cbn [trace cleaned saved_world]. rewrite <- !app_assoc. reflexivity.
Qed.

Lemma upload_branch_leaves_answer_to_model_witness :
  exists file_info,
    fst (process_upload env0 1 "How many rows are there?"
           (mkUpload "data.csv" [x61; x0a]%byte) empty_world)
    = Ok (None, Some file_info)
    /\ fst (collect_file_data env0 1 "/tmp/tmpq1/data.csv"
              (saved_world env0 (mkUpload "data.csv" [x61; x0a]%byte) empty_world))
       = Ok file_info
    /\ trace (snd (process_upload env0 1 "How many rows are there?"
                     (mkUpload "data.csv" [x61; x0a]%byte) empty_world))
       = trace empty_world
           ++ [EvMkdtemp "/tmp/tmpq1"; EvUploadRead "data.csv";
               EvWrite "/tmp/tmpq1/data.csv" 2;
               EvRemove "/tmp/tmpq1/data.csv"; EvRmdir "/tmp/tmpq1"].
Proof.
  apply (upload_branch_leaves_answer_to_model env0 0 "How many rows are there?"
           (mkUpload "data.csv" [x61; x0a]%byte) "csv" empty_world).
  - vm_compute. discriminate.
  - reflexivity.
  - reflexivity.
  - reflexivity.
Defined.

(** [X23] [compute_sha256] on a path that does not exist raises
    nothing: it returns the text "Error calculating SHA256: [Errno 2] No
    such file or directory: '...'", which is the digest of no content. *)
Theorem digest_of_missing_file_is_error_text (file_path : string) (w : world) :
  files w !! file_path = None ->
  compute_sha256 file_path w
  = (Ok ("Error calculating SHA256: [Errno 2] No such file or directory: '"
           +:+ file_path +:+ "'"), w)
  /\ forall bytes,
       fst (compute_sha256 file_path w) <> Ok (Sha256.hex (Sha256.digest bytes)).
Proof.
  intros Hfile.
  assert (Hrun : compute_sha256 file_path w
                 = (Ok ("Error calculating SHA256: [Errno 2] No such file or directory: '"
                          +:+ file_path +:+ "'"), w)).
  { unfold compute_sha256, try_except, bind, read_file. rewrite Hfile. reflexivity. }
  split; [exact Hrun |].
  intros bytes. rewrite Hrun. cbn [fst]. intros H. injection H as H.
  apply (f_equal (all_chars is_lower_hex)) in H.
  destruct (hex_format _ (digest_small bytes)) as [_ Hhex].
  rewrite Hhex in H. discriminate H.
Qed.

Lemma digest_of_missing_file_is_error_text_witness :
  compute_sha256 "/up/gone.md" empty_world
  = (Ok "Error calculating SHA256: [Errno 2] No such file or directory: '/up/gone.md'",
     empty_world)
  /\ forall bytes,
       fst (compute_sha256 "/up/gone.md" empty_world)
       <> Ok (Sha256.hex (Sha256.digest bytes)).
Proof.
  apply (digest_of_missing_file_is_error_text "/up/gone.md" empty_world).
  reflexivity.
Defined.

(** ** What the dispatch reads of the question *)

(** [X24] The dispatch reads two things of the question: whether its
    lower-cased form contains "sha256sum", and whether it contains
    "code -s".  Two questions that agree on both get the same local
    answer; the word "prettier" changes nothing. *)
Theorem dispatch_reads_two_words (env : Env) (q1 q2 file_type file_path temp_dir : string)
        (w : world) :
  contains (lower q1) "sha256sum" = contains (lower q2) "sha256sum" ->
  contains (lower q1) "code -s" = contains (lower q2) "code -s" ->
  local_answer env q1 file_type file_path temp_dir w
  = local_answer env q2 file_type file_path temp_dir w.
Proof.
  intros Hsha Hcode. unfold local_answer. rewrite Hsha, Hcode.
  destruct (contains (lower q2) "sha256sum"), (String.eqb file_type "md");
    cbn [andb]; rewrite ?andb_false_r; reflexivity.
Qed.

Lemma dispatch_reads_two_words_witness :
  local_answer env0 "Run PRETTIER, then sha256sum" "md" "/up/empty.md" "/up" empty_md_world
  = local_answer env0 "sha256sum?" "md" "/up/empty.md" "/up" empty_md_world.
Proof.
  apply (dispatch_reads_two_words env0 "Run PRETTIER, then sha256sum" "sha256sum?"
           "md" "/up/empty.md" "/up" empty_md_world).
  - reflexivity.
  - reflexivity.
Defined.

(** [X25] A request without attachment whose model response has a
    first candidate without the key [content] ends in [KeyError]
    ('content'), after the one request to the model: no clause of
    [generate_response] or of the handler catches it. *)
Theorem missing_content_raises_key_error (env : Env) (depth : nat) (question : string)
        (w : world) (response : http_response)
        (fields candidate : list (string * json)) (candidates : list json) :
  http_post env system_prompt (message_prompt question None) = inr response ->
  (status_code response < 400)%Z ->
  resp_json response = Some (JObj fields) ->
  Py.dict_lookup "candidates" fields = Some (JArr (JObj candidate :: candidates)) ->
  Py.dict_lookup "content" candidate = None ->
  answer_question env depth question None w
  = (Raise (mkExn KeyError "'content'"),
     logged w (EvHttpPost (message_prompt question None))).
Proof.
  intros Hpost Hcode Hjson Hcands Hcontent.
  rewrite answer_question_no_file.
  assert (Hrun : generate_response env question None w
                 = (Raise (mkExn KeyError "'content'"),
                    logged w (EvHttpPost (message_prompt question None)))).
  { unfold generate_response, try_except.
    unfold bind at 1. unfold log at 1.
    fold (logged w (EvHttpPost (message_prompt question None))).
    unfold bind at 1. rewrite Hpost. unfold lift at 1, ret at 1.
    unfold bind at 1. rewrite (raise_for_status_ok response _ Hcode).
    unfold bind at 1, response_json. rewrite Hjson. unfold ret at 1.
    unfold bind at 1, Py.get, lift at 1. rewrite Hcands. unfold ret at 1.
    cbn [Py.truthy].
    unfold bind at 1. cbn [Py.getitem0 lift]. unfold ret at 1.
    unfold bind at 1. cbn [Py.getitem]. rewrite Hcontent. reflexivity. }
  rewrite Hrun. reflexivity.
Qed.

Lemma missing_content_raises_key_error_witness :
  answer_question (stub_env (inr []) (inr withheld_response)) 1 "What is 2 + 2?" None
                  empty_world
  = (Raise (mkExn KeyError "'content'"),
     logged empty_world (EvHttpPost (message_prompt "What is 2 + 2?" None))).
Proof.
  apply (missing_content_raises_key_error (stub_env (inr []) (inr withheld_response)) 1
           "What is 2 + 2?" empty_world withheld_response
           [("candidates", JArr [JObj [("finishReason", JStr "SAFETY")]])]
           [("finishReason", JStr "SAFETY")] []).
  - reflexivity.
  - reflexivity.
  - reflexivity.
  - reflexivity.
  - reflexivity.
Defined.
